(** * A shallow embedding of [backend/main.py]

    The service is a FastAPI application with two routes, [GET /health] and
    [POST /generate], in front of a Stable Diffusion pipeline that is loaded
    once at start-up.  This file embeds the request model [ImageRequest], the
    encoder [pil_to_data_url_png] and the two handlers [health] and
    [generate], and proves the properties the specification states about
    them.

    What the handlers call but the repository does not define (torch,
    diffusers, PIL, pydantic's coercion of one JSON value) is kept abstract
    in two interfaces, [Collaborators] and [FieldTypes]. *)

From Stdlib Require Import ZArith NArith QArith Strings.Byte Ascii String List Lia.
From stdpp Require Import base option gmap strings list.

Local Open Scope Z_scope.
Local Open Scope string_scope.
Local Open Scope list_scope.

(** ** JSON values and Python exceptions *)

(** The JSON values that occur in request bodies and in the dictionaries the
    handlers return.  A Python [float] is represented by the rational it
    denotes. *)
Inductive jvalue : Type :=
| JNull
| JBool (b : bool)
| JInt (z : Z)
| JFloat (q : Q)
| JStr (s : string).

(** Exceptions a call into the libraries can raise.  All of them are
    instances of [Exception]; [torch.cuda.OutOfMemoryError] is the one class
    [generate] tells apart. *)
Inductive exn : Type :=
| OutOfMemoryError (msg : string)
| Exception (cls msg : string).

(** [str(e)] *)
Definition str (e : exn) : string :=
  match e with
  | OutOfMemoryError msg => msg
  | Exception _ msg => msg
  end.

Definition is_oom (e : exn) : bool :=
  match e with
  | OutOfMemoryError _ => true
  | Exception _ _ => false
  end.

Inductive result (A : Type) : Type :=
| Ok (a : A)
| Raise (e : exn).
Arguments Ok {A} a.
Arguments Raise {A} e.

(** ** The request model *)

(** [class ImageRequest(BaseModel)] *)
Record ImageRequest : Type := {
  prompt : string;
  negative_prompt : string;
  num_inference_steps : Z;
  guidance_scale : Q;
  width : Z;
  height : Z;
  seed : option Z;
}.

(** How pydantic turns one JSON value into a value of a declared field type
    ([None] when it reports a validation error).  The coercion rules are
    pydantic's and differ between its versions, so they stay abstract. *)
Class FieldTypes : Type := {
  validate_str : jvalue → option string;
  validate_int : jvalue → option Z;
  validate_float : jvalue → option Q;
}.

Section Parsing.
Context {FT : FieldTypes}.

(** [Optional[int]]: [null] is accepted and means [None]. *)
Definition validate_optional_int (j : jvalue) : option (option Z) :=
  match j with
  | JNull => Some None
  | _ => Some <$> validate_int j
  end.

(** A field declared without a default must be present. *)
Definition required {A} (v : jvalue → option A) (o : option jvalue) : option A :=
  match o with
  | Some j => v j
  | None => None
  end.

(** A field declared [name: T = d] takes [d] when the body omits it. *)
Definition with_default {A} (v : jvalue → option A) (d : A) (o : option jvalue) : option A :=
  match o with
  | Some j => v j
  | None => Some d
  end.

(** Validation of a request body against [ImageRequest]; [None] stands for
    pydantic's [ValidationError].  Keys the model does not declare are
    ignored. *)
Definition parse_ImageRequest (body : gmap string jvalue) : option ImageRequest :=
  p ← required validate_str (body !! "prompt");
  np ← with_default validate_str "blurry, low quality, distorted" (body !! "negative_prompt");
  n ← with_default validate_int 25 (body !! "num_inference_steps");
  g ← with_default validate_float (15 # 2)%Q (body !! "guidance_scale");
  wd ← with_default validate_int 512 (body !! "width");
  ht ← with_default validate_int 512 (body !! "height");
  sd ← with_default validate_optional_int None (body !! "seed");
  Some {| prompt := p; negative_prompt := np; num_inference_steps := n;
          guidance_scale := g; width := wd; height := ht; seed := sd |}.
End Parsing.

(** ** The libraries behind the handlers *)

(** The keyword arguments of the pipeline call in [generate]. *)
Record PipeArgs (G : Type) : Type := {
  arg_prompt : string;
  arg_negative_prompt : string;
  arg_num_inference_steps : Z;
  arg_guidance_scale : Q;
  arg_width : Z;
  arg_height : Z;
  arg_generator : option G;
}.
Arguments arg_prompt {G} _.
Arguments arg_negative_prompt {G} _.
Arguments arg_num_inference_steps {G} _.
Arguments arg_guidance_scale {G} _.
Arguments arg_width {G} _.
Arguments arg_height {G} _.
Arguments arg_generator {G} _.

(** torch, diffusers and PIL as [generate] uses them.  [Pipeline] is the
    handle the global [pipe] holds; [Runtime] is the state a pipeline run
    reads and leaves changed: the device, torch's global random number
    generator, and the mutable state of the pipeline object and its
    scheduler. *)
Class Collaborators : Type := {
  Pipeline : Type;
  Generator : Type;
  Image : Type;
  Runtime : Type;
  (** [torch.Generator(device=d).manual_seed(s)]: a fresh generator *)
  manual_seed : string → Z → result Generator;
  (** [pipe(prompt=..., ..., generator=...)], giving [result.images] *)
  run_pipeline : Pipeline → PipeArgs Generator → Runtime → result (list Image) * Runtime;
  (** [img.save(buf, format="PNG"); buf.getvalue()] *)
  save_png : Image → result (list byte);
}.

(** ** Base64 ([base64.b64encode], RFC 4648) *)

Module Base64.
Local Open Scope N_scope.

Definition alphabet : list byte :=
  list_byte_of_string
    "ABCDEFGHIJKLMNOPQRSTUVWXYZabcdefghijklmnopqrstuvwxyz0123456789+/".

Definition pad : byte := "="%byte.

(** The character that stands for the 6-bit value [n]. *)
Definition char_of (n : N) : byte := default pad (alphabet !! N.to_nat n).

Fixpoint index_from (i : N) (c : byte) (l : list byte) : option N :=
  match l with
  | [] => None
  | x :: l' => if Byte.eqb x c then Some i else index_from (i + 1) c l'
  end.

(** The 6-bit value a character stands for, if it is in the alphabet. *)
Definition value_of (c : byte) : option N := index_from 0 c alphabet.

(** The check that [value_of] undoes [char_of] at [n] and that the
    character of [n] is not the padding character. *)
Definition sextet_ok (n : N) : bool :=
  match value_of (char_of n) with
  | Some m => N.eqb m n
  | None => false
  end && negb (Byte.eqb (char_of n) pad).

(** Every three input bytes form a 24-bit group that is written as four
    characters; a last group of one or two bytes is filled with zero bits
    and its unused characters are written as [=]. *)
Fixpoint b64encode (bs : list byte) : list byte :=
  match bs with
  | [] => []
  | [a] =>
      let n := to_N a * 65536 in
      [char_of (n / 262144); char_of (n / 4096 mod 64); pad; pad]
  | [a; b] =>
      let n := to_N a * 65536 + to_N b * 256 in
      [char_of (n / 262144); char_of (n / 4096 mod 64); char_of (n / 64 mod 64); pad]
  | a :: b :: c :: rest =>
      let n := to_N a * 65536 + to_N b * 256 + to_N c in
      char_of (n / 262144) :: char_of (n / 4096 mod 64)
        :: char_of (n / 64 mod 64) :: char_of (n mod 64) :: b64encode rest
  end.

(** *** The decoder of a client

    The repository only encodes.  The decoder below is the one RFC 4648
    prescribes for the text [b64encode] writes; it is what the
    specification's round trip runs on the payload of a data URL. *)

(** The first [k] bytes of the 24-bit group [n]. *)
Definition bytes_of (k : nat) (n : N) : option (list byte) :=
  a ← of_N (n / 65536);
  b ← of_N (n / 256 mod 256);
  c ← of_N (n mod 256);
  Some (take k [a; b; c]).

Definition quantum (c0 c1 c2 c3 : byte) : option (list byte) :=
  s0 ← value_of c0;
  s1 ← value_of c1;
  if Byte.eqb c2 pad then
    if Byte.eqb c3 pad then bytes_of 1 (s0 * 262144 + s1 * 4096) else None
  else
    s2 ← value_of c2;
    if Byte.eqb c3 pad then bytes_of 2 (s0 * 262144 + s1 * 4096 + s2 * 64)
    else
      s3 ← value_of c3;
      bytes_of 3 (s0 * 262144 + s1 * 4096 + s2 * 64 + s3).

Fixpoint b64decode (cs : list byte) : option (list byte) :=
  match cs with
  | [] => Some []
  | c0 :: c1 :: c2 :: c3 :: rest =>
      b ← quantum c0 c1 c2 c3;
      r ← b64decode rest;
      (* padding is only allowed in the last group *)
      if decide (length b = 3%nat ∨ rest = []) then Some (b ++ r) else None
  | _ => None
  end.
End Base64.

(** ** The response encoder *)

Definition data_url_prefix : string := "data:image/png;base64,".

Section Encoder.
Context {L : Collaborators}.

(** [pil_to_data_url_png].  A Rocq [string] is a sequence of bytes, so
    [.decode("utf-8")] of the ASCII text [b64encode] returns is
    [string_of_list_byte]. *)
Definition pil_to_data_url_png (img : Image) : result string :=
  match save_png img with
  | Ok buf =>
      let b64 := string_of_list_byte (Base64.b64encode buf) in
      Ok (data_url_prefix +:+ b64)
  | Raise e => Raise e
  end.
End Encoder.

(** What a client does with the [image] field: drop the fixed prefix and
    decode the rest as Base64. *)
Fixpoint strip_prefix (p s : string) : option string :=
  match p, s with
  | EmptyString, _ => Some s
  | String a p', String b s' => if Ascii.eqb a b then strip_prefix p' s' else None
  | String _ _, EmptyString => None
  end.

Definition data_url_payload (url : string) : option (list byte) :=
  payload ← strip_prefix data_url_prefix url;
  Base64.b64decode (list_byte_of_string payload).

(** ** Process state, effects and the two handlers *)

Inductive level : Type := INFO | ERROR.

(** What a handler hands back to FastAPI: the dictionary it returns, or the
    [HTTPException] it raises. *)
Inductive outcome : Type :=
| Returned (content : gmap string jvalue)
| HTTPException (status_code : Z) (detail : string).

(** What the route answers: FastAPI replies 422 without running the handler
    when the body fails validation, 200 with the returned dictionary, and the
    status code of a raised [HTTPException]. *)
Inductive reply : Type :=
| Unprocessable
| Handled (o : outcome).

Definition status_of (r : reply) : Z :=
  match r with
  | Unprocessable => 422
  | Handled (Returned _) => 200
  | Handled (HTTPException code _) => code
  end.

(** [MODEL_ID = os.getenv("SD_MODEL", "runwayml/stable-diffusion-v1-5")] *)
Definition MODEL_ID (environ : gmap string string) : string :=
  default "runwayml/stable-diffusion-v1-5" (environ !! "SD_MODEL").

Section Service.
Context {L : Collaborators}.

(** The module's globals: [pipe] and [device], and the environment
    [MODEL_ID] was read from. *)
Record Server : Type := {
  environ : gmap string string;
  pipe : option Pipeline;
  device : string;
}.

(** The effects of a handler that the properties speak about. *)
Inductive event : Type :=
| Logged (lvl : level) (msg : string) (exc_info : bool)
| PipelineCalled (p : Pipeline) (args : PipeArgs Generator).

Record World : Type := {
  trace : list event;
  runtime : Runtime;
}.

Fixpoint pipeline_calls (tr : list event) : nat :=
  match tr with
  | [] => 0
  | PipelineCalled _ _ :: tr' => S (pipeline_calls tr')
  | Logged _ _ _ :: tr' => pipeline_calls tr'
  end.

(** Code that reads and changes the world and may raise. *)
Definition io (A : Type) : Type := World → result A * World.

#[local] Instance io_ret : MRet io := λ A a w, (Ok a, w).
#[local] Instance io_bind : MBind io := λ A B f m w,
  match m w with
  | (Ok a, w') => f a w'
  | (Raise e, w') => (Raise e, w')
  end.

Definition lift {A} (r : result A) : io A := λ w, (r, w).

Definition record (e : event) (w : World) : World :=
  {| trace := trace w ++ [e]; runtime := runtime w |}.

Definition logger_info (msg : string) : io unit :=
  λ w, (Ok tt, record (Logged INFO msg false) w).

Definition logger_error (msg : string) (exc_info : bool) : io unit :=
  λ w, (Ok tt, record (Logged ERROR msg exc_info) w).

(** [pipe(...)] under [torch.inference_mode()] *)
Definition call (p : Pipeline) (args : PipeArgs Generator) : io (list Image) :=
  λ w,
    let '(r, rt) := run_pipeline p args (runtime w) in
    (r, {| trace := trace w ++ [PipelineCalled p args]; runtime := rt |}).

(** [result.images[0]] *)
Definition first_image (images : list Image) : result Image :=
  match images with
  | img :: _ => Ok img
  | [] => Raise (Exception "IndexError" "list index out of range")
  end.

Definition json_of_seed (s : option Z) : jvalue :=
  match s with
  | Some z => JInt z
  | None => JNull
  end.

(** [health] *)
Definition health (srv : Server) : World → outcome * World :=
  λ w,
    (Returned {[ "status" := JStr "ok";
                 "model" := JStr (MODEL_ID (environ srv));
                 "device" := JStr (device srv);
                 "loaded" := JBool (bool_decide (pipe srv ≠ None)) ]}, w).

(** [generator = None; if req.seed is not None: generator = ...] *)
Definition make_generator (dev : string) (s : option Z) : result (option Generator) :=
  match s with
  | Some z =>
      match manual_seed dev z with
      | Ok g => Ok (Some g)
      | Raise e => Raise e
      end
  | None => Ok None
  end.

(** The keyword arguments [generate] passes to the pipeline. *)
Definition pipeline_args (req : ImageRequest) (generator : option Generator)
  : PipeArgs Generator :=
  {| arg_prompt := prompt req;
     arg_negative_prompt := negative_prompt req;
     arg_num_inference_steps := num_inference_steps req;
     arg_guidance_scale := guidance_scale req;
     arg_width := width req;
     arg_height := height req;
     arg_generator := generator |}.

(** The body of the [try] block of [generate]. *)
Definition inference (srv : Server) (p : Pipeline) (req : ImageRequest)
  : io (gmap string jvalue) :=
  generator ← lift (make_generator (device srv) (seed req));
  _ ← logger_info ("Prompt: " +:+ prompt req);
  images ← call p (pipeline_args req generator);
  img ← lift (first_image images);
  url ← lift (pil_to_data_url_png img);
  mret ({[ "image" := JStr url;
           "prompt" := JStr (prompt req);
           "seed" := json_of_seed (seed req);
           "device" := JStr (device srv);
           "model" := JStr (MODEL_ID (environ srv)) ]} : gmap string jvalue).

(** [generate] *)
Definition generate (srv : Server) (req : ImageRequest) : World → outcome * World :=
  λ w,
    match pipe srv with
    | None => (HTTPException 500 "Model not loaded", w)
    | Some p =>
        if negb (width req mod 8 =? 0)%Z || negb (height req mod 8 =? 0)%Z then
          (HTTPException 400 "width/height must be divisible by 8 (e.g., 512, 768)", w)
        else
          match inference srv p req w with
          | (Ok content, w') => (Returned content, w')
          | (Raise (OutOfMemoryError _), w') =>
              (HTTPException 507 "CUDA OOM. Try smaller width/height (512) or fewer steps.", w')
          | (Raise e, w') =>
              let '(_, w'') := logger_error ("Generate error: " +:+ str e) true w' in
              (HTTPException 500 (str e), w'')
          end
    end.

(** The [detail] strings of the three fixed errors. *)
Definition not_loaded_msg : string := "Model not loaded".
Definition bad_size_msg : string :=
  "width/height must be divisible by 8 (e.g., 512, 768)".
Definition oom_msg : string :=
  "CUDA OOM. Try smaller width/height (512) or fewer steps.".

(** The world once the prompt was logged and the pipeline has run with
    generator [g], leaving the runtime as [rt]. *)
Definition after_call (p : Pipeline) (req : ImageRequest) (g : option Generator)
    (rt : Runtime) (w : World) : World :=
  {| trace := (trace w ++ [Logged INFO ("Prompt: " +:+ prompt req) false])
                ++ [PipelineCalled p (pipeline_args req g)];
     runtime := rt |}.

(** The two routes. *)
Definition get_health (srv : Server) : World → reply * World :=
  λ w, let '(o, w') := health srv w in (Handled o, w').

Definition post_generate {FT : FieldTypes} (srv : Server) (body : gmap string jvalue)
  : World → reply * World :=
  λ w,
    match parse_ImageRequest body with
    | None => (Unprocessable, w)
    | Some req => let '(o, w') := generate srv req w in (Handled o, w')
    end.
End Service.

(** What the client of the round trip needs from the image codec: the pixel
    data of an image, and the reader of a PNG file. *)
Class PngReader {L : Collaborators} : Type := {
  Pixels : Type;
  (** [img.tobytes()] *)
  tobytes : Image → Pixels;
  (** [Image.open(io.BytesIO(buf)).tobytes()] *)
  open_png : list byte → option Pixels;
}.

Definition decode_data_url {L : Collaborators} {R : PngReader} (url : string) : option Pixels :=
  buf ← data_url_payload url;
  open_png buf.

(** ** A small concrete runtime

    An instance of the interfaces on which the handlers can be run: images
    are solid-colour pixel rows, the pipeline paints with the colour its
    generator (or, without one, the global generator) gives, refuses
    non-positive step counts and runs out of memory above 1024 x 1024. *)
Module Sample.
Definition png_signature : list byte :=
  [x89; x50; x4e; x47; x0d; x0a; x1a; x0a].

Definition colour (n : Z) : byte :=
  default x00 (Byte.of_N (Z.to_N (n mod 256))).

Definition paint (args : PipeArgs Z) (rt : Z) : result (list (list byte)) * Z :=
  if (1024 * 1024 <? arg_width args * arg_height args)%Z then
    (Raise (OutOfMemoryError "CUDA out of memory."), rt)
  else if (arg_num_inference_steps args <? 1)%Z then
    (Raise (Exception "ValueError" "num_inference_steps must be positive"), rt)
  else
    match arg_generator args with
    | Some g => (Ok [[colour g; colour (g + 1); colour (g + 2)]], rt)
    | None => (Ok [[colour rt; colour (rt + 1); colour (rt + 2)]], rt + 3)
    end.

#[export] Instance libraries : Collaborators := {|
  Pipeline := unit;
  Generator := Z;
  Image := list byte;
  Runtime := Z;
  manual_seed := λ _ s,
    if ((- 2 ^ 63 <=? s) && (s <? 2 ^ 64))%Z then Ok s
    else Raise (Exception "RuntimeError" "Overflow when unpacking long");
  run_pipeline := λ _ args rt, paint args rt;
  save_png := λ img, Ok (png_signature ++ img);
|}.

Fixpoint strip_bytes (p l : list byte) : option (list byte) :=
  match p, l with
  | [], _ => Some l
  | a :: p', b :: l' => if Byte.eqb a b then strip_bytes p' l' else None
  | _ :: _, [] => None
  end.

#[export] Instance reader : PngReader := {|
  Pixels := list byte;
  tobytes := λ img, img;
  open_png := strip_bytes png_signature;
|}.

#[export] Instance strict : FieldTypes := {|
  validate_str := λ j, match j with JStr s => Some s | _ => None end;
  validate_int := λ j, match j with JInt z => Some z | _ => None end;
  validate_float := λ j,
    match j with
    | JFloat q => Some q
    | JInt z => Some (inject_Z z)
    | _ => None
    end;
|}.

Definition loaded : Server :=
  {| environ := ∅; pipe := Some tt; device := "cpu" |}.

Definition unloaded : Server :=
  {| environ := ∅; pipe := None; device := "cpu" |}.

(** A fresh world whose global generator is in state [rt]. *)
Definition world_at (rt : Z) : World := {| trace := []; runtime := rt |}.

Definition start : World := world_at 7.

Definition request (w h : Z) (s : option Z) : ImageRequest :=
  {| prompt := "a red circle";
     negative_prompt := "blurry, low quality, distorted";
     num_inference_steps := 25;
     guidance_scale := (15 # 2)%Q;
     width := w;
     height := h;
     seed := s |}.
End Sample.

(** ** Start-up: [load_model] *)

(** The two precisions [load_model] chooses between. *)
Inductive dtype : Type := float16 | float32.

(** [str(dtype)], as the f-string of the second log line prints it. *)
Definition str_dtype (d : dtype) : string :=
  match d with
  | float16 => "torch.float16"
  | float32 => "torch.float32"
  end.

(** The arguments of [StableDiffusionPipeline.from_pretrained]. *)
Record PretrainedArgs : Type := {
  pretrained_model : string;
  torch_dtype : dtype;
  (** [None] removes the safety checker; [Some tt] would keep the built-in one *)
  safety_checker : option unit;
  requires_safety_checker : bool;
}.

(** What [load_model] asks of torch and diffusers.  A pipeline object is
    changed in place by the scheduler assignment, by [to] and by
    [enable_attention_slicing]; a value of [Pipeline] is the object in one of
    its states, and the global [pipe] always holds the latest. *)
Class Loader {L : Collaborators} : Type := {
  (** [torch.cuda.is_available()] *)
  cuda_is_available : Runtime → bool;
  (** [StableDiffusionPipeline.from_pretrained(...)] *)
  from_pretrained : PretrainedArgs → Runtime → result Pipeline * Runtime;
  (** [pipe.scheduler = EulerAncestralDiscreteScheduler.from_config(pipe.scheduler.config)] *)
  use_euler_ancestral : Pipeline → result Pipeline;
  (** [pipe.to(dev)] *)
  to : Pipeline → string → Runtime → result Pipeline * Runtime;
  (** [pipe.enable_attention_slicing()] *)
  enable_attention_slicing : Pipeline → result Pipeline;
}.

Section Startup.
Context {L : Collaborators} {D : Loader}.

Definition set_pipe (p : Pipeline) (srv : Server) : Server :=
  {| environ := environ srv; pipe := Some p; device := device srv |}.

Definition set_device (dev : string) (srv : Server) : Server :=
  {| environ := environ srv; pipe := pipe srv; device := dev |}.

Definition set_runtime (rt : Runtime) (w : World) : World :=
  {| trace := trace w; runtime := rt |}.

(** The [except] clause of [load_model]: log with the traceback, re-raise. *)
Definition load_failed (e : exn) (srv : Server) (w : World)
  : result unit * Server * World :=
  (Raise e, srv, record (Logged ERROR ("Failed to load model: " +:+ str e) true) w).

(** [load_model]: the result ([None], or the exception that leaves the
    function), the globals and the world afterwards. *)
Definition load_model (srv : Server) (w : World) : result unit * Server * World :=
  let cuda := cuda_is_available (runtime w) in
  let dev := if cuda then "cuda" else "cpu" in
  let dt := if cuda then float16 else float32 in
  let srv := set_device dev srv in
  let w := record (Logged INFO ("Loading model: " +:+ MODEL_ID (environ srv)) false) w in
  let w := record (Logged INFO ("Device: " +:+ dev +:+ ", dtype: " +:+ str_dtype dt) false) w in
  match from_pretrained {| pretrained_model := MODEL_ID (environ srv);
                           torch_dtype := dt;
                           safety_checker := None;
                           requires_safety_checker := false |} (runtime w) with
  | (Raise e, rt) => load_failed e srv (set_runtime rt w)
  | (Ok p0, rt) =>
      let srv := set_pipe p0 srv in
      let w := set_runtime rt w in
      match use_euler_ancestral p0 with
      | Raise e => load_failed e srv w
      | Ok p1 =>
          let srv := set_pipe p1 srv in
          if String.eqb (device srv) "cuda" then
            match to p1 "cuda" (runtime w) with
            | (Raise e, rt) => load_failed e srv (set_runtime rt w)
            | (Ok p2, rt) =>
                let srv := set_pipe p2 srv in
                let w := set_runtime rt w in
                match enable_attention_slicing p2 with
                | Raise e => load_failed e srv w
                | Ok p3 =>
                    (Ok tt, set_pipe p3 srv,
                     record (Logged INFO "✅ Model loaded" false) w)
                end
            end
          else
            match to p1 "cpu" (runtime w) with
            | (Raise e, rt) => load_failed e srv (set_runtime rt w)
            | (Ok p2, rt) =>
                (Ok tt, set_pipe p2 srv,
                 record (Logged INFO "✅ Model loaded" false) (set_runtime rt w))
            end
      end
  end.

(** The module as imported, before start-up: [pipe = None], [device = "cpu"]. *)
Definition imported (env : gmap string string) : Server :=
  {| environ := env; pipe := None; device := "cpu" |}.
End Startup.

(** ** A second concrete runtime, with a pipeline that records its set-up

    The pipeline remembers the model it was loaded from, its precision, its
    scheduler, the device it is on and whether attention slicing is on.  The
    machine has an accelerator when the runtime state is even. *)
Module Rig.
Record pipeline : Type := {
  model_name : string;
  precision : dtype;
  checked : bool;
  scheduler : string;
  placed_on : string;
  slicing : bool;
}.

#[export] Instance libraries : Collaborators := {|
  Pipeline := pipeline;
  Generator := Z;
  Image := list byte;
  Runtime := Z;
  manual_seed := λ _ s,
    if ((- 2 ^ 63 <=? s) && (s <? 2 ^ 64))%Z then Ok s
    else Raise (Exception "RuntimeError" "Overflow when unpacking long");
  run_pipeline := λ p args rt,
    if (arg_width args <=? 0)%Z then (Ok [], rt)
    else if (arg_height args <=? 0)%Z then (Ok [[]], rt)
    else Sample.paint args rt;
  save_png := λ img,
    match img with
    | [] => Raise (Exception "SystemError" "tile cannot extend outside image")
    | _ => Ok (Sample.png_signature ++ img)
    end;
|}.

#[export] Instance loader : Loader := {|
  cuda_is_available := λ rt, Z.even rt;
  from_pretrained := λ a rt,
    if String.eqb (pretrained_model a) "missing/model" then
      (Raise (Exception "OSError" "missing/model is not a valid model identifier"), rt)
    else
      (Ok {| model_name := pretrained_model a; precision := torch_dtype a;
             checked := bool_decide (safety_checker a ≠ None);
             scheduler := "PNDMScheduler"; placed_on := "cpu"; slicing := false |},
       rt + 1);
  use_euler_ancestral := λ p,
    if String.eqb (model_name p) "odd/scheduler" then
      Raise (Exception "ValueError" "scheduler config is incomplete")
    else
      Ok {| model_name := model_name p; precision := precision p; checked := checked p;
            scheduler := "EulerAncestralDiscreteScheduler";
            placed_on := placed_on p; slicing := slicing p |};
  to := λ p dev rt,
    (Ok {| model_name := model_name p; precision := precision p; checked := checked p;
           scheduler := scheduler p; placed_on := dev; slicing := slicing p |}, rt);
  enable_attention_slicing := λ p,
    Ok {| model_name := model_name p; precision := precision p; checked := checked p;
          scheduler := scheduler p; placed_on := placed_on p; slicing := true |};
|}.

Definition world_at (rt : Z) : World := {| trace := []; runtime := rt |}.

Definition env_of (name : string) : gmap string string := {[ "SD_MODEL" := name ]}.

(** The pipeline and the globals after a start-up without accelerator. *)
Definition cpu_pipeline : pipeline :=
  {| model_name := "runwayml/stable-diffusion-v1-5"; precision := float32;
     checked := false; scheduler := "EulerAncestralDiscreteScheduler";
     placed_on := "cpu"; slicing := false |}.

Definition ready : Server :=
  {| environ := ∅; pipe := Some cpu_pipeline; device := "cpu" |}.
End Rig.

(** * Properties *)

(** ** Base64 round trip *)

Module Base64Facts.
Import Base64.
Local Open Scope N_scope.

Ltac div_lia := zify; Z.to_euclidean_division_equations; lia.

Lemma sextets_ok : forallb sextet_ok (map N.of_nat (seq 0 64)) = true.
Proof. vm_compute. reflexivity. Qed.

Lemma sextet_ok_lt n : n < 64 → sextet_ok n = true.
Proof.
  intros Hn. apply (proj1 (forallb_forall _ _) sextets_ok).
  apply in_map_iff. exists (N.to_nat n). split; [lia|].
  apply in_seq. lia.
Qed.

Lemma value_of_char_of n : n < 64 → value_of (char_of n) = Some n.
Proof.
  intros Hn. pose proof (sextet_ok_lt n Hn) as Hok. unfold sextet_ok in Hok.
  apply andb_prop in Hok as [Hv _].
  destruct (value_of (char_of n)) as [m|]; [|discriminate].
  apply N.eqb_eq in Hv. by subst.
Qed.

Lemma char_of_not_pad n : n < 64 → Byte.eqb (char_of n) pad = false.
Proof.
  intros Hn. pose proof (sextet_ok_lt n Hn) as Hok. unfold sextet_ok in Hok.
  apply andb_prop in Hok as [_ Hp]. by apply negb_true_iff in Hp.
Qed.

Lemma bytes_of_group k (a b c : byte) :
  bytes_of k (to_N a * 65536 + to_N b * 256 + to_N c) = Some (take k [a; b; c]).
Proof.
  pose proof (to_N_bounded a). pose proof (to_N_bounded b). pose proof (to_N_bounded c).
  unfold bytes_of.
  replace ((to_N a * 65536 + to_N b * 256 + to_N c) / 65536) with (to_N a) by div_lia.
  replace ((to_N a * 65536 + to_N b * 256 + to_N c) / 256 mod 256) with (to_N b) by div_lia.
  replace ((to_N a * 65536 + to_N b * 256 + to_N c) mod 256) with (to_N c) by div_lia.
  by rewrite !of_to_N.
Qed.

Lemma quantum_three (a b c : byte) :
  let n := to_N a * 65536 + to_N b * 256 + to_N c in
  quantum (char_of (n / 262144)) (char_of (n / 4096 mod 64))
          (char_of (n / 64 mod 64)) (char_of (n mod 64)) = Some [a; b; c].
Proof.
  pose proof (to_N_bounded a). pose proof (to_N_bounded b). pose proof (to_N_bounded c).
  intros n. unfold quantum.
  rewrite !value_of_char_of, !char_of_not_pad by (subst n; div_lia). simpl.
  replace (n / 262144 * 262144 + n / 4096 mod 64 * 4096 + n / 64 mod 64 * 64 + n mod 64)
    with n by div_lia.
  apply (bytes_of_group 3).
Qed.

Lemma quantum_two (a b : byte) :
  let n := to_N a * 65536 + to_N b * 256 in
  quantum (char_of (n / 262144)) (char_of (n / 4096 mod 64))
          (char_of (n / 64 mod 64)) pad = Some [a; b].
Proof.
  pose proof (to_N_bounded a). pose proof (to_N_bounded b).
  intros n. unfold quantum.
  rewrite !value_of_char_of, !char_of_not_pad by (subst n; div_lia). simpl.
  replace (n / 262144 * 262144 + n / 4096 mod 64 * 4096 + n / 64 mod 64 * 64)
    with (to_N a * 65536 + to_N b * 256 + to_N "000"%byte) by (subst n; simpl; div_lia).
  apply (bytes_of_group 2).
Qed.

Lemma quantum_one (a : byte) :
  let n := to_N a * 65536 in
  quantum (char_of (n / 262144)) (char_of (n / 4096 mod 64)) pad pad = Some [a].
Proof.
  pose proof (to_N_bounded a).
  intros n. unfold quantum.
  rewrite !value_of_char_of by (subst n; div_lia). simpl.
  replace (n / 262144 * 262144 + n / 4096 mod 64 * 4096)
    with (to_N a * 65536 + to_N "000"%byte * 256 + to_N "000"%byte) by (subst n; simpl; div_lia).
  apply (bytes_of_group 1).
Qed.

(** Induction over a list three elements at a time. *)
Lemma list_triples_ind {A} (P : list A → Prop) :
  P [] → (∀ a, P [a]) → (∀ a b, P [a; b]) →
  (∀ a b c l, P l → P (a :: b :: c :: l)) →
  ∀ l, P l.
Proof.
  intros H0 H1 H2 H3 l.
  cut (P l ∧ (∀ a, P (a :: l)) ∧ (∀ a b, P (a :: b :: l))); [tauto|].
  induction l as [|x l (IH0 & IH1 & IH2)]; [by auto|].
  split; [apply IH1|]. split; [intros a; apply IH2|].
  intros a b. by apply H3.
Qed.

Lemma b64decode_b64encode (bs : list byte) : b64decode (b64encode bs) = Some bs.
Proof.
  induction bs as [|a|a b|a b c rest IH] using list_triples_ind.
  - reflexivity.
  - cbn [b64encode b64decode]. by rewrite quantum_one.
  - cbn [b64encode b64decode]. by rewrite quantum_two.
  - cbn [b64encode b64decode]. rewrite quantum_three. simpl. by rewrite IH.
Qed.
End Base64Facts.

(** ** The handlers *)

Section ServiceFacts.
Context {L : Collaborators}.

Lemma size_check_true (req : ImageRequest) :
  negb (width req mod 8 =? 0)%Z || negb (height req mod 8 =? 0)%Z = true ↔
  width req mod 8 ≠ 0 ∨ height req mod 8 ≠ 0.
Proof.
  rewrite orb_true_iff, !negb_true_iff, !Z.eqb_neq. tauto.
Qed.

Lemma size_check_false (req : ImageRequest) :
  negb (width req mod 8 =? 0)%Z || negb (height req mod 8 =? 0)%Z = false ↔
  width req mod 8 = 0 ∧ height req mod 8 = 0.
Proof.
  rewrite orb_false_iff, !negb_false_iff, !Z.eqb_eq. tauto.
Qed.

Lemma pipeline_calls_app (tr1 tr2 : list event) :
  pipeline_calls (tr1 ++ tr2) = (pipeline_calls tr1 + pipeline_calls tr2)%nat.
Proof.
  induction tr1 as [|[lvl msg ei|p args] tr1 IH]; simpl; [done|done|by rewrite IH].
Qed.

(** [inference], step by step. *)
Lemma inference_unfold srv p req w :
  inference srv p req w =
  match make_generator (device srv) (seed req) with
  | Raise e => (Raise e, w)
  | Ok g =>
      match run_pipeline p (pipeline_args req g) (runtime w) with
      | (Raise e, rt) => (Raise e, after_call p req g rt w)
      | (Ok images, rt) =>
          match first_image images with
          | Raise e => (Raise e, after_call p req g rt w)
          | Ok img =>
              match pil_to_data_url_png img with
              | Raise e => (Raise e, after_call p req g rt w)
              | Ok url =>
                  (Ok {[ "image" := JStr url;
                         "prompt" := JStr (prompt req);
                         "seed" := json_of_seed (seed req);
                         "device" := JStr (device srv);
                         "model" := JStr (MODEL_ID (environ srv)) ]},
                   after_call p req g rt w)
              end
          end
      end
  end.
Proof.
  unfold inference, mbind, io_bind, mret, io_ret, lift, logger_info, call, after_call.
  destruct (make_generator _ _) as [g|e]; [|done]. simpl.
  destruct (run_pipeline _ _ _) as [[images|e] rt]; [|done].
  destruct (first_image images) as [img|e]; [|done].
  destruct (pil_to_data_url_png img) as [url|e]; done.
Qed.

(** Whatever [inference] does, it adds to the trace, and it calls the
    pipeline at most once. *)
Lemma inference_effects srv p req w :
  ∃ evs, trace (inference srv p req w).2 = trace w ++ evs ∧ (pipeline_calls evs ≤ 1)%nat.
Proof.
  rewrite inference_unfold.
  destruct (make_generator _ _) as [g|e].
  2:{ exists []. rewrite app_nil_r. split; [done | simpl; lia]. }
  exists [Logged INFO ("Prompt: " +:+ prompt req) false; PipelineCalled p (pipeline_args req g)].
  split; [|simpl; lia].
  destruct (run_pipeline _ _ _) as [[images|e] rt]; simpl.
  2:{ by rewrite <- app_assoc. }
  destruct (first_image images) as [img|e]; simpl; [|by rewrite <- app_assoc].
  destruct (pil_to_data_url_png img) as [url|e]; simpl; by rewrite <- app_assoc.
Qed.

Lemma generate_effects srv req w :
  ∃ evs, trace (generate srv req w).2 = trace w ++ evs ∧ (pipeline_calls evs ≤ 1)%nat.
Proof.
  unfold generate.
  destruct (pipe srv) as [p|].
  2:{ exists []. rewrite app_nil_r. split; [done | simpl; lia]. }
  destruct (negb _ || negb _).
  { exists []. rewrite app_nil_r. split; [done | simpl; lia]. }
  destruct (inference_effects srv p req w) as (evs & Htr & Hn).
  destruct (inference srv p req w) as [[content|[msg|cls msg]] w1]; simpl in *.
  - by exists evs.
  - by exists evs.
  - exists (evs ++ [Logged ERROR ("Generate error: " +:+ msg) true]).
    rewrite Htr, app_assoc. split; [done|].
    rewrite pipeline_calls_app. simpl. lia.
Qed.

Lemma generate_at_most_one_call srv req w :
  (pipeline_calls (trace (generate srv req w).2) ≤ pipeline_calls (trace w) + 1)%nat.
Proof.
  destruct (generate_effects srv req w) as (evs & -> & Hn).
  rewrite pipeline_calls_app. lia.
Qed.

Lemma generate_unloaded srv req w :
  pipe srv = None → generate srv req w = (HTTPException 500 not_loaded_msg, w).
Proof. intros Hp. unfold generate. by rewrite Hp. Qed.

Lemma generate_bad_size srv p req w :
  pipe srv = Some p →
  width req mod 8 ≠ 0 ∨ height req mod 8 ≠ 0 →
  generate srv req w = (HTTPException 400 bad_size_msg, w).
Proof.
  intros Hp Hsz. unfold generate. rewrite Hp.
  apply size_check_true in Hsz. by rewrite Hsz.
Qed.

(** With the model loaded and both sizes divisible by 8, [generate] is its
    [try] statement. *)
Lemma generate_inference srv p req w :
  pipe srv = Some p →
  width req mod 8 = 0 → height req mod 8 = 0 →
  generate srv req w =
  match inference srv p req w with
  | (Ok content, w') => (Returned content, w')
  | (Raise (OutOfMemoryError _), w') => (HTTPException 507 oom_msg, w')
  | (Raise e, w') =>
      (HTTPException 500 (str e), record (Logged ERROR ("Generate error: " +:+ str e) true) w')
  end.
Proof.
  intros Hp Hw Hh. unfold generate. rewrite Hp.
  rewrite (proj2 (size_check_false req)) by done.
  by destruct (inference srv p req w) as [[content|[msg|cls msg]] w1].
Qed.
End ServiceFacts.

(** ** Errors raised before inference *)

(** C2: while the model handle is absent ([pipe] is [None]), [generate]
    raises [HTTPException] with status 500 and the detail "Model not loaded"
    for every request, and leaves the world as it found it: the pipeline is
    not called and nothing is logged.  The route answers 500 for every body
    that passes validation. *)
Theorem generate_model_not_loaded {L : Collaborators} (srv : Server) (req : ImageRequest)
    (w : World) :
  pipe srv = None →
  generate srv req w = (HTTPException 500 "Model not loaded", w) ∧
  pipeline_calls (trace (generate srv req w).2) = pipeline_calls (trace w) ∧
  (∀ (F : FieldTypes) (body : gmap string jvalue),
      parse_ImageRequest body = Some req →
      post_generate srv body w = (Handled (HTTPException 500 "Model not loaded"), w) ∧
      status_of (post_generate srv body w).1 = 500).
Proof.
  intros Hp. pose proof (generate_unloaded srv req w Hp) as Hg.
  split; [exact Hg|]. split; [by rewrite Hg|].
  intros F body Hbody. unfold post_generate. rewrite Hbody, Hg. done.
Qed.

Lemma generate_model_not_loaded_witness :
  generate Sample.unloaded (Sample.request 512 512 (Some 42)) Sample.start
  = (HTTPException 500 "Model not loaded", Sample.start).
Proof.
  apply (generate_model_not_loaded Sample.unloaded (Sample.request 512 512 (Some 42))
           Sample.start).
  reflexivity.
Defined.

(** C3: the check of the model handle comes first.  A request whose width or
    height is not divisible by 8, issued while the handle is absent, gets the
    500 "Model not loaded" error and not the 400 error about the size. *)
Theorem generate_not_loaded_before_size {L : Collaborators} (srv : Server)
    (req : ImageRequest) (w : World) :
  pipe srv = None →
  width req mod 8 ≠ 0 ∨ height req mod 8 ≠ 0 →
  (generate srv req w).1 = HTTPException 500 "Model not loaded" ∧
  (∀ detail, (generate srv req w).1 ≠ HTTPException 400 detail).
Proof.
  intros Hp _. rewrite (generate_unloaded srv req w Hp). simpl.
  split; [done|]. intros detail Heq. discriminate Heq.
Qed.

Lemma generate_not_loaded_before_size_witness :
  (generate Sample.unloaded (Sample.request 513 512 None) Sample.start).1
  = HTTPException 500 "Model not loaded".
Proof.
  apply (generate_not_loaded_before_size Sample.unloaded (Sample.request 513 512 None)
           Sample.start).
  - reflexivity.
  - left. vm_compute. discriminate.
Defined.

(** C1, as the code has it: with the model loaded, a request whose width or
    height is not divisible by 8 gets the 400 error and the world stays as it
    was (no inference, whatever the state of the model handle); the size
    check is the only one [generate] makes: a request with both sizes
    divisible by 8 never gets a 4xx answer from it, and, once the generator
    is built, prompt, negative prompt, step count, guidance scale and sizes
    reach the pipeline exactly as the request has them.  A body without
    [prompt] does not reach [generate]: validation refuses it. *)
Theorem generate_size_check {L : Collaborators} (srv : Server) (req : ImageRequest)
    (w : World) :
  (width req mod 8 ≠ 0 ∨ height req mod 8 ≠ 0 →
     ∀ p, pipe srv = Some p →
       generate srv req w =
       (HTTPException 400 "width/height must be divisible by 8 (e.g., 512, 768)", w)) ∧
  (width req mod 8 ≠ 0 ∨ height req mod 8 ≠ 0 → (generate srv req w).2 = w) ∧
  (width req mod 8 = 0 → height req mod 8 = 0 →
     ∀ code detail, (generate srv req w).1 = HTTPException code detail →
       ¬ (400 ≤ code < 500)) ∧
  (width req mod 8 = 0 → height req mod 8 = 0 →
     ∀ p g, pipe srv = Some p →
       make_generator (device srv) (seed req) = Ok g →
       PipelineCalled p
         {| arg_prompt := prompt req;
            arg_negative_prompt := negative_prompt req;
            arg_num_inference_steps := num_inference_steps req;
            arg_guidance_scale := guidance_scale req;
            arg_width := width req;
            arg_height := height req;
            arg_generator := g |} ∈ trace (generate srv req w).2) ∧
  (∀ (F : FieldTypes) (body : gmap string jvalue),
     body !! "prompt" = None → post_generate srv body w = (Unprocessable, w)).
Proof.
  repeat split.
  - intros Hsz p Hp. by apply (generate_bad_size srv p).
  - intros Hsz. destruct (pipe srv) as [p|] eqn:Hp.
    + by rewrite (generate_bad_size srv p req w Hp Hsz).
    + by rewrite (generate_unloaded srv req w Hp).
  - intros Hw Hh code detail Hout.
    destruct (pipe srv) as [p|] eqn:Hp.
    + rewrite (generate_inference srv p req w Hp Hw Hh) in Hout.
      destruct (inference srv p req w) as [[content|[msg|cls msg]] w1];
        simpl in Hout; inversion Hout; lia.
    + rewrite (generate_unloaded srv req w Hp) in Hout. inversion Hout. lia.
  - intros Hw Hh p g Hp Hg.
    rewrite (generate_inference srv p req w Hp Hw Hh), inference_unfold, Hg.
    fold (pipeline_args req g).
    assert (∀ rt, PipelineCalled p (pipeline_args req g) ∈ trace (after_call p req g rt w))
      as Hin by (intros rt; simpl; set_solver).
    destruct (run_pipeline _ _ _) as [[images|[msg|cls msg]] rt];
      [destruct (first_image images) as [img|[msg|cls msg]];
       [destruct (pil_to_data_url_png img) as [url|[msg|cls msg]]|..]|..];
      try exact (Hin rt);
      unfold record; cbn [trace snd]; apply elem_of_app; left; exact (Hin rt).
  - intros F body Hbody. unfold post_generate, parse_ImageRequest.
    by rewrite Hbody.
Qed.

Lemma generate_size_check_witness :
  generate Sample.loaded (Sample.request 513 512 None) Sample.start
  = (HTTPException 400 "width/height must be divisible by 8 (e.g., 512, 768)",
     Sample.start) ∧
  (generate Sample.unloaded (Sample.request 512 4 None) Sample.start).2 = Sample.start ∧
  (∀ code detail,
     (generate Sample.loaded (Sample.request 512 768 None) Sample.start).1
     = HTTPException code detail → ¬ (400 ≤ code < 500)) ∧
  PipelineCalled (L := Sample.libraries) tt
    {| arg_prompt := "a red circle";
       arg_negative_prompt := "blurry, low quality, distorted";
       arg_num_inference_steps := 25;
       arg_guidance_scale := (15 # 2)%Q;
       arg_width := 512;
       arg_height := 768;
       arg_generator := Some 42 |}
    ∈ trace (generate Sample.loaded (Sample.request 512 768 (Some 42)) Sample.start).2 ∧
  post_generate (FT := Sample.strict) Sample.loaded {[ "width" := JInt 512 ]} Sample.start
  = (Unprocessable, Sample.start).
Proof.
  repeat apply conj.
  - apply (proj1 (generate_size_check Sample.loaded (Sample.request 513 512 None)
                    Sample.start)) with (p := tt).
    + left. vm_compute. discriminate.
    + reflexivity.
  - apply (proj1 (proj2 (generate_size_check Sample.unloaded (Sample.request 512 4 None)
                           Sample.start))).
    right. vm_compute. discriminate.
  - apply (proj1 (proj2 (proj2 (generate_size_check Sample.loaded
                    (Sample.request 512 768 None) Sample.start)))); reflexivity.
  - apply (proj1 (proj2 (proj2 (proj2 (generate_size_check Sample.loaded
                    (Sample.request 512 768 (Some 42)) Sample.start))))
             eq_refl eq_refl tt (Some 42)); reflexivity.
  - apply (proj2 (proj2 (proj2 (proj2 (generate_size_check Sample.loaded
                    (Sample.request 512 512 None) Sample.start))))).
    reflexivity.
Defined.

(** C1 as it is stated fails twice.  While the model handle is absent a
    request of width 513 gets 500 and not a 4xx answer; and a body without
    [prompt] whose sizes are divisible by 8 is refused by validation (422)
    without any call of the pipeline, instead of being passed through. *)
Lemma size_check_not_always_400 :
  let req := Sample.request 513 512 None in
  let refused := generate Sample.unloaded req Sample.start in
  let no_prompt : gmap string jvalue := {[ "width" := JInt 512; "height" := JInt 512 ]} in
  let answer := post_generate (FT := Sample.strict) Sample.loaded no_prompt Sample.start in
  width req mod 8 ≠ 0 ∧
  refused.1 = HTTPException 500 "Model not loaded" ∧
  ¬ (400 ≤ status_of (Handled refused.1) < 500) ∧
  no_prompt !! "prompt" = None ∧
  status_of answer.1 = 422 ∧
  pipeline_calls (trace answer.2) = 0%nat.
Proof.
  vm_compute. repeat split; try discriminate; try reflexivity.
  intros [_ Hlt]. discriminate Hlt.
Qed.

(** ** The health route *)

Lemma MODEL_ID_default (environ : gmap string string) :
  environ !! "SD_MODEL" = None → MODEL_ID environ = "runwayml/stable-diffusion-v1-5".
Proof. intros Hv. unfold MODEL_ID. by rewrite Hv. Qed.

Lemma MODEL_ID_configured (environ : gmap string string) (name : string) :
  environ !! "SD_MODEL" = Some name → MODEL_ID environ = name.
Proof. intros Hv. unfold MODEL_ID. by rewrite Hv. Qed.

(** C5: [health] returns, in every state of the model handle, a dictionary
    with exactly the keys status, model, device and loaded: status is "ok",
    model is [MODEL_ID], device is the global [device], and loaded is true
    exactly when [pipe] is populated.  It raises nothing and leaves the world
    as it found it; the route answers 200. *)
Theorem health_report {L : Collaborators} (srv : Server) (w : World) :
  ∃ content loaded,
    health srv w = (Returned content, w) ∧
    dom content = {[ "status"; "model"; "device"; "loaded" ]} ∧
    content !! "status" = Some (JStr "ok") ∧
    content !! "model" = Some (JStr (MODEL_ID (environ srv))) ∧
    content !! "device" = Some (JStr (device srv)) ∧
    content !! "loaded" = Some (JBool loaded) ∧
    (loaded = true ↔ pipe srv ≠ None) ∧
    status_of (get_health srv w).1 = 200 ∧
    (get_health srv w).2 = w.
Proof.
  eexists _, (bool_decide (pipe srv ≠ None)).
  split; [reflexivity|].
  split; [rewrite !dom_insert_L, dom_singleton_L; set_solver|].
  repeat split; try by simplify_map_eq.
  - apply bool_decide_eq_true_1.
  - apply bool_decide_eq_true_2.
Qed.

Lemma health_report_witness :
  ∃ content,
    health Sample.unloaded Sample.start = (Returned content, Sample.start) ∧
    content !! "loaded" = Some (JBool false).
Proof.
  destruct (health_report Sample.unloaded Sample.start)
    as (content & loaded & Hrun & _ & _ & _ & _ & Hloaded & Hiff & _).
  exists content. split; [exact Hrun|].
  destruct loaded; [|exact Hloaded].
  exfalso. by apply (proj1 Hiff).
Defined.

(** ** Successful requests *)

Lemma pil_to_data_url_png_ok {L : Collaborators} (img : Image) (url : string) :
  pil_to_data_url_png img = Ok url ↔
  ∃ buf, save_png img = Ok buf ∧
         url = data_url_prefix +:+ string_of_list_byte (Base64.b64encode buf).
Proof.
  unfold pil_to_data_url_png. destruct (save_png img) as [buf|e]; split.
  - intros [= <-]. by exists buf.
  - intros (buf' & [= <-] & ->). done.
  - discriminate.
  - intros (buf' & Hbuf & _). discriminate.
Qed.

Lemma data_url_has_prefix (b64 : string) :
  String.prefix data_url_prefix (data_url_prefix +:+ b64) = true.
Proof. apply prefix_correct. by destruct b64. Qed.

(** The dictionary [generate] returns for the data URL [url]. *)
Lemma inference_ok_inv {L : Collaborators} srv p req w content w' :
  inference srv p req w = (Ok content, w') →
  ∃ g rt images img url,
    make_generator (device srv) (seed req) = Ok g ∧
    run_pipeline p (pipeline_args req g) (runtime w) = (Ok images, rt) ∧
    first_image images = Ok img ∧
    pil_to_data_url_png img = Ok url ∧
    content = {[ "image" := JStr url;
                 "prompt" := JStr (prompt req);
                 "seed" := json_of_seed (seed req);
                 "device" := JStr (device srv);
                 "model" := JStr (MODEL_ID (environ srv)) ]} ∧
    w' = after_call p req g rt w.
Proof.
  rewrite inference_unfold.
  destruct (make_generator _ _) as [g|e]; [|discriminate].
  destruct (run_pipeline _ _ _) as [[images|e] rt] eqn:Hrun; [|discriminate].
  destruct (first_image images) as [img|e] eqn:Himg; [|discriminate].
  destruct (pil_to_data_url_png img) as [url|e] eqn:Hurl; [|discriminate].
  intros [= <- <-]. by exists g, rt, images, img, url.
Qed.

Lemma generate_returned_inv {L : Collaborators} srv req w content w' :
  generate srv req w = (Returned content, w') →
  ∃ p, pipe srv = Some p ∧ width req mod 8 = 0 ∧ height req mod 8 = 0 ∧
       inference srv p req w = (Ok content, w').
Proof.
  unfold generate. destruct (pipe srv) as [p|]; [|discriminate].
  destruct (negb _ || negb _) eqn:Hsz; [discriminate|].
  apply size_check_false in Hsz as [Hw Hh].
  destruct (inference srv p req w) as [[c|[msg|cls msg]] w1] eqn:Hinf;
    simpl; try discriminate.
  intros [= <- <-]. exists p. by rewrite Hinf.
Qed.

(** When every library call succeeds, so does [generate]. *)
Lemma generate_succeeds {L : Collaborators} srv p req w g rt img rest buf :
  pipe srv = Some p →
  width req mod 8 = 0 → height req mod 8 = 0 →
  make_generator (device srv) (seed req) = Ok g →
  run_pipeline p (pipeline_args req g) (runtime w) = (Ok (img :: rest), rt) →
  save_png img = Ok buf →
  generate srv req w =
  (Returned {[ "image" := JStr (data_url_prefix +:+ string_of_list_byte (Base64.b64encode buf));
               "prompt" := JStr (prompt req);
               "seed" := json_of_seed (seed req);
               "device" := JStr (device srv);
               "model" := JStr (MODEL_ID (environ srv)) ]},
   after_call p req g rt w).
Proof.
  intros Hp Hw Hh Hg Hrun Hbuf.
  rewrite (generate_inference srv p req w Hp Hw Hh), inference_unfold, Hg, Hrun.
  simpl. unfold pil_to_data_url_png. by rewrite Hbuf.
Qed.

(** C9: whenever [generate] returns, the dictionary has exactly the keys
    image, prompt, seed, device and model; image is a non-empty string that
    starts with "data:image/png;base64,", prompt and seed are those of the
    request (an absent seed is [null]), device is the global [device] and
    model is [MODEL_ID]; the route answers 200. *)
Theorem generate_returned_content {L : Collaborators} (srv : Server) (req : ImageRequest)
    (w w' : World) (content : gmap string jvalue) :
  generate srv req w = (Returned content, w') →
  dom content = {[ "image"; "prompt"; "seed"; "device"; "model" ]} ∧
  (∃ url, content !! "image" = Some (JStr url) ∧
          String.prefix "data:image/png;base64," url = true ∧ url ≠ "") ∧
  content !! "prompt" = Some (JStr (prompt req)) ∧
  content !! "seed" = Some (match seed req with Some z => JInt z | None => JNull end) ∧
  content !! "device" = Some (JStr (device srv)) ∧
  content !! "model" = Some (JStr (MODEL_ID (environ srv))) ∧
  status_of (Handled (generate srv req w).1) = 200.
Proof.
  intros Hrun.
  destruct (generate_returned_inv _ _ _ _ _ Hrun) as (p & Hp & Hw & Hh & Hinf).
  destruct (inference_ok_inv _ _ _ _ _ _ Hinf)
    as (g & rt & images & img & url & _ & _ & _ & Hurl & -> & _).
  apply pil_to_data_url_png_ok in Hurl as (buf & _ & ->).
  split; [rewrite !dom_insert_L, dom_singleton_L; set_solver|].
  split.
  { eexists. split; [by simplify_map_eq|]. split; [apply data_url_has_prefix|done]. }
  rewrite Hrun. repeat split; by simplify_map_eq.
Qed.

Lemma generate_returned_content_witness :
  ∃ content,
    (generate Sample.loaded (Sample.request 512 512 (Some 42)) Sample.start).1
    = Returned content ∧
    content !! "prompt" = Some (JStr "a red circle") ∧
    content !! "seed" = Some (JInt 42).
Proof.
  pose proof (generate_succeeds Sample.loaded tt (Sample.request 512 512 (Some 42))
                Sample.start (Some 42) 7 _ [] _
                eq_refl eq_refl eq_refl eq_refl eq_refl eq_refl) as Hrun.
  destruct (generate_returned_content _ _ _ _ _ Hrun) as (_ & _ & Hprompt & Hseed & _).
  eexists. split; [by rewrite Hrun|]. split; [exact Hprompt | exact Hseed].
Defined.

(** ** The request model *)

Lemma guidance_default_value : (15 # 2 == 7.5)%Q.
Proof. reflexivity. Qed.

(** C10: a body without [prompt] fails validation; in every request that
    validation accepts, each optional field the body omits has its declared
    default: negative_prompt "blurry, low quality, distorted",
    num_inference_steps 25, guidance_scale 7.5, width 512, height 512 and
    seed [None]; and a body that gives a valid prompt and nothing else is
    accepted with all of these at once. *)
Theorem ImageRequest_defaults {FT : FieldTypes} (body : gmap string jvalue) :
  (body !! "prompt" = None → parse_ImageRequest body = None) ∧
  (∀ req, parse_ImageRequest body = Some req →
     (body !! "negative_prompt" = None →
        negative_prompt req = "blurry, low quality, distorted") ∧
     (body !! "num_inference_steps" = None → num_inference_steps req = 25) ∧
     (body !! "guidance_scale" = None → guidance_scale req = (15 # 2)%Q) ∧
     (body !! "width" = None → width req = 512) ∧
     (body !! "height" = None → height req = 512) ∧
     (body !! "seed" = None → seed req = None)) ∧
  (∀ j s, body = {[ "prompt" := j ]} → validate_str j = Some s →
     parse_ImageRequest body =
     Some {| prompt := s;
             negative_prompt := "blurry, low quality, distorted";
             num_inference_steps := 25;
             guidance_scale := (15 # 2)%Q;
             width := 512;
             height := 512;
             seed := None |}).
Proof.
  split; [|split].
  - intros Hp. unfold parse_ImageRequest. by rewrite Hp.
  - intros req. unfold parse_ImageRequest. intros Hparse.
    destruct (required validate_str (body !! "prompt")) as [p|]; [|discriminate].
    simpl in Hparse.
    destruct (body !! "negative_prompt") as [j1|]; simpl in Hparse;
      [destruct (validate_str j1) as [np|]; [|discriminate]|];
    (destruct (body !! "num_inference_steps") as [j2|]; simpl in Hparse;
      [destruct (validate_int j2) as [n|]; [|discriminate]|]);
    (destruct (body !! "guidance_scale") as [j3|]; simpl in Hparse;
      [destruct (validate_float j3) as [q|]; [|discriminate]|]);
    (destruct (body !! "width") as [j4|]; simpl in Hparse;
      [destruct (validate_int j4) as [wd|]; [|discriminate]|]);
    (destruct (body !! "height") as [j5|]; simpl in Hparse;
      [destruct (validate_int j5) as [ht|]; [|discriminate]|]);
    (destruct (body !! "seed") as [j6|]; simpl in Hparse;
      [destruct (validate_optional_int j6) as [sd|]; [|discriminate]|]);
    injection Hparse as <-; simpl; repeat split; try done; discriminate.
  - intros j s -> Hs. unfold parse_ImageRequest.
    rewrite lookup_singleton_eq. simpl. rewrite Hs. simpl.
    by rewrite !lookup_singleton_ne.
Qed.

Lemma ImageRequest_defaults_witness :
  parse_ImageRequest (FT := Sample.strict) {[ "width" := JInt 768 ]} = None ∧
  (∀ req,
     parse_ImageRequest (FT := Sample.strict)
       {[ "prompt" := JStr "x"; "width" := JInt 768; "seed" := JInt 42 ]} = Some req →
     negative_prompt req = "blurry, low quality, distorted" ∧
     num_inference_steps req = 25 ∧
     guidance_scale req = (15 # 2)%Q ∧
     height req = 512) ∧
  parse_ImageRequest (FT := Sample.strict) {[ "prompt" := JStr "x" ]} =
  Some {| prompt := "x";
          negative_prompt := "blurry, low quality, distorted";
          num_inference_steps := 25;
          guidance_scale := (15 # 2)%Q;
          width := 512;
          height := 512;
          seed := None |}.
Proof.
  split; [|split].
  - apply (proj1 (ImageRequest_defaults (FT := Sample.strict) {[ "width" := JInt 768 ]})).
    reflexivity.
  - intros req Hreq.
    destruct (proj1 (proj2 (ImageRequest_defaults (FT := Sample.strict)
                {[ "prompt" := JStr "x"; "width" := JInt 768; "seed" := JInt 42 ]}))
                req Hreq) as (Hnp & Hn & Hg & _ & Hh & _).
    repeat split; [apply Hnp | apply Hn | apply Hg | apply Hh]; reflexivity.
  - apply (proj2 (proj2 (ImageRequest_defaults (FT := Sample.strict)
                           {[ "prompt" := JStr "x" ]})) (JStr "x") "x");
      reflexivity.
Defined.

(** ** The data URL round trip *)

Lemma strip_data_url_prefix (b64 : string) :
  strip_prefix data_url_prefix (data_url_prefix +:+ b64) = Some b64.
Proof. reflexivity. Qed.

Lemma data_url_payload_encode (buf : list byte) :
  data_url_payload (data_url_prefix +:+ string_of_list_byte (Base64.b64encode buf))
  = Some buf.
Proof.
  unfold data_url_payload. rewrite strip_data_url_prefix. simpl.
  rewrite list_byte_of_string_of_list_byte.
  apply Base64Facts.b64decode_b64encode.
Qed.

(** C6: for an image PIL writes as the PNG file [buf], with a PNG codec that
    is lossless (reading back what was saved gives the pixel data of the
    image), [pil_to_data_url_png] returns "data:image/png;base64," followed
    by a payload; decoding the payload as Base64 gives [buf] back byte for
    byte, and reading that as PNG gives the pixel data of the image. *)
Theorem data_url_round_trip {L : Collaborators} {R : PngReader} (img : Image)
    (buf : list byte) :
  (∀ i b, save_png i = Ok b → open_png b = Some (tobytes i)) →
  save_png img = Ok buf →
  ∃ b64,
    pil_to_data_url_png img = Ok ("data:image/png;base64," +:+ b64) ∧
    data_url_payload ("data:image/png;base64," +:+ b64) = Some buf ∧
    decode_data_url ("data:image/png;base64," +:+ b64) = Some (tobytes img).
Proof.
  intros Hlossless Hbuf.
  exists (string_of_list_byte (Base64.b64encode buf)).
  split; [|split].
  - unfold pil_to_data_url_png. by rewrite Hbuf.
  - apply data_url_payload_encode.
  - unfold decode_data_url.
    change "data:image/png;base64," with data_url_prefix.
    rewrite data_url_payload_encode. simpl. by apply Hlossless.
Qed.

Lemma data_url_round_trip_witness :
  ∃ b64,
    pil_to_data_url_png (L := Sample.libraries) [xff; x00; x00; xff; x00; x00]
    = Ok ("data:image/png;base64," +:+ b64) ∧
    decode_data_url (R := Sample.reader) ("data:image/png;base64," +:+ b64)
    = Some [xff; x00; x00; xff; x00; x00].
Proof.
  destruct (data_url_round_trip (R := Sample.reader) [xff; x00; x00; xff; x00; x00]
              (Sample.png_signature ++ [xff; x00; x00; xff; x00; x00]))
    as (b64 & Henc & _ & Hdec).
  - intros i b Hsave. injection Hsave as <-. reflexivity.
  - reflexivity.
  - exists b64. split; [exact Henc | exact Hdec].
Defined.

(** ** Failures during inference *)

(** Where an exception of the [try] block comes from: building the
    generator, the pipeline call, the indexing of [result.images], or the
    encoding of the image. *)
Lemma inference_raise_inv {L : Collaborators} srv p req w e :
  (inference srv p req w).1 = Raise e →
  make_generator (device srv) (seed req) = Raise e ∨
  ∃ g rt, make_generator (device srv) (seed req) = Ok g ∧
    (run_pipeline p (pipeline_args req g) (runtime w) = (Raise e, rt) ∨
     ∃ images, run_pipeline p (pipeline_args req g) (runtime w) = (Ok images, rt) ∧
       (first_image images = Raise e ∨
        ∃ img, first_image images = Ok img ∧ pil_to_data_url_png img = Raise e)).
Proof.
  rewrite inference_unfold.
  destruct (make_generator _ _) as [g|e0]; [|intros [= <-]; by left].
  intros Hr. right. exists g.
  destruct (run_pipeline _ _ _) as [[images|e0] rt] eqn:Hrun; exists rt; split; try done.
  2:{ left. simpl in Hr. by injection Hr as <-. }
  right. exists images. split; [done|].
  destruct (first_image images) as [img|e0]; [|left; simpl in Hr; by injection Hr as <-].
  right. exists img. split; [done|].
  destruct (pil_to_data_url_png img) as [url|e0]; [discriminate|].
  simpl in Hr. by injection Hr as <-.
Qed.

Lemma inference_pipeline_raises {L : Collaborators} srv p req w g e rt :
  make_generator (device srv) (seed req) = Ok g →
  run_pipeline p (pipeline_args req g) (runtime w) = (Raise e, rt) →
  inference srv p req w = (Raise e, after_call p req g rt w).
Proof. intros Hg Hrun. by rewrite inference_unfold, Hg, Hrun. Qed.

Lemma first_image_not_oom {L : Collaborators} (images : list Image) (msg : string) :
  first_image images ≠ Raise (OutOfMemoryError msg).
Proof. by destruct images. Qed.

Lemma pil_to_data_url_png_raise {L : Collaborators} (img : Image) (e : exn) :
  pil_to_data_url_png img = Raise e → save_png img = Raise e.
Proof. unfold pil_to_data_url_png. destruct (save_png img); [discriminate|by intros [= ->]]. Qed.

Lemma make_generator_raise {L : Collaborators} (dev : string) (s : option Z) (e : exn) :
  make_generator dev s = Raise e → ∃ z, s = Some z ∧ manual_seed dev z = Raise e.
Proof.
  unfold make_generator. destruct s as [z|]; [|discriminate].
  destruct (manual_seed dev z) eqn:Hs; [discriminate|].
  intros [= <-]. by exists z.
Qed.

(** The answer is 507 exactly when the [try] block raised
    [OutOfMemoryError]. *)
Lemma generate_507_iff {L : Collaborators} srv req w :
  (∃ detail, (generate srv req w).1 = HTTPException 507 detail) ↔
  ∃ p msg, pipe srv = Some p ∧ width req mod 8 = 0 ∧ height req mod 8 = 0 ∧
           (inference srv p req w).1 = Raise (OutOfMemoryError msg).
Proof.
  split.
  - intros [detail Hout]. unfold generate in Hout.
    destruct (pipe srv) as [p|]; [|discriminate].
    destruct (negb _ || negb _) eqn:Hsz; [discriminate|].
    apply size_check_false in Hsz as [Hw Hh].
    destruct (inference srv p req w) as [[c|[msg|cls msg]] w1] eqn:Hinf;
      simpl in Hout; try discriminate.
    exists p, msg. by rewrite Hinf.
  - intros (p & msg & Hp & Hw & Hh & Hinf).
    rewrite (generate_inference srv p req w Hp Hw Hh).
    destruct (inference srv p req w) as [r w1]. simpl in Hinf. subst r.
    by eexists.
Qed.

(** C7: [generate] answers 507 exactly when [torch.cuda.OutOfMemoryError] was
    raised inside its [try] block, and then the detail is the advice to use a
    smaller size or fewer steps.  An out-of-memory error of the pipeline call
    gives 507 with the pipeline called once and nothing logged as an error;
    when building the generator and writing the PNG (which run on the host)
    do not raise it, 507 means that the pipeline call raised it.  The
    pipeline is never called a second time. *)
Theorem generate_out_of_memory {L : Collaborators} (srv : Server) (req : ImageRequest)
    (w : World) :
  ((∃ detail, (generate srv req w).1 = HTTPException 507 detail) ↔
   ∃ p msg, pipe srv = Some p ∧ width req mod 8 = 0 ∧ height req mod 8 = 0 ∧
            (inference srv p req w).1 = Raise (OutOfMemoryError msg)) ∧
  (∀ detail, (generate srv req w).1 = HTTPException 507 detail →
     detail = "CUDA OOM. Try smaller width/height (512) or fewer steps.") ∧
  (∀ p g msg rt,
     pipe srv = Some p → width req mod 8 = 0 → height req mod 8 = 0 →
     make_generator (device srv) (seed req) = Ok g →
     run_pipeline p (pipeline_args req g) (runtime w) = (Raise (OutOfMemoryError msg), rt) →
     generate srv req w =
     (HTTPException 507 "CUDA OOM. Try smaller width/height (512) or fewer steps.",
      after_call p req g rt w)) ∧
  ((∀ dev z msg, manual_seed dev z ≠ Raise (OutOfMemoryError msg)) →
   (∀ img msg, save_png img ≠ Raise (OutOfMemoryError msg)) →
   ∀ detail, (generate srv req w).1 = HTTPException 507 detail →
     ∃ p g msg rt, pipe srv = Some p ∧
       make_generator (device srv) (seed req) = Ok g ∧
       run_pipeline p (pipeline_args req g) (runtime w)
       = (Raise (OutOfMemoryError msg), rt)) ∧
  (pipeline_calls (trace (generate srv req w).2) ≤ pipeline_calls (trace w) + 1)%nat.
Proof.
  split; [apply generate_507_iff|].
  split.
  { intros detail Hout. unfold generate in Hout.
    destruct (pipe srv) as [p|]; [|discriminate].
    destruct (negb _ || negb _); [discriminate|].
    destruct (inference srv p req w) as [[c|[msg|cls msg]] w1];
      simpl in Hout; try discriminate.
    by injection Hout as <-. }
  split.
  { intros p g msg rt Hp Hw Hh Hg Hrun.
    rewrite (generate_inference srv p req w Hp Hw Hh).
    by rewrite (inference_pipeline_raises srv p req w g _ rt Hg Hrun). }
  split; [|apply generate_at_most_one_call].
  intros Hseed Hpng detail Hout.
  destruct (proj1 (generate_507_iff srv req w) (ex_intro _ detail Hout))
    as (p & msg & Hp & _ & _ & Hinf).
  apply inference_raise_inv in Hinf as [Hg|(g & rt & Hg & [Hrun|(images & Hrun & Hrest)])].
  - apply make_generator_raise in Hg as (z & _ & Hz). by apply Hseed in Hz.
  - by exists p, g, msg, rt.
  - destruct Hrest as [Himg|(img & _ & Hurl)].
    + by apply first_image_not_oom in Himg.
    + apply pil_to_data_url_png_raise in Hurl. by apply Hpng in Hurl.
Qed.

Lemma generate_out_of_memory_witness :
  generate Sample.loaded (Sample.request 2048 2048 (Some 42)) Sample.start
  = (HTTPException 507 "CUDA OOM. Try smaller width/height (512) or fewer steps.",
     after_call (L := Sample.libraries) tt (Sample.request 2048 2048 (Some 42)) (Some 42) 7
       Sample.start) ∧
  ∃ p g msg rt,
    pipe Sample.loaded = Some p ∧
    make_generator (device Sample.loaded) (Some 42) = Ok g ∧
    run_pipeline p (pipeline_args (Sample.request 2048 2048 (Some 42)) g) 7
    = (Raise (OutOfMemoryError msg), rt).
Proof.
  pose proof (generate_out_of_memory Sample.loaded (Sample.request 2048 2048 (Some 42))
                Sample.start) as (_ & _ & Hif & Honly & _).
  pose proof (Hif tt (Some 42) "CUDA out of memory." 7
                eq_refl eq_refl eq_refl eq_refl eq_refl) as Hrun.
  split; [exact Hrun|].
  apply (Honly (λ dev z msg, ltac:(simpl; destruct (_ && _); discriminate))
               (λ img msg, ltac:(discriminate))
               "CUDA OOM. Try smaller width/height (512) or fewer steps.").
  by rewrite Hrun.
Defined.

(** C8: when the [try] block of [generate] raises an exception that is not
    [torch.cuda.OutOfMemoryError], the answer is 500 with [str(e)] as detail,
    and the error is logged, with the traceback ([exc_info=True]), after what
    the block had done; the pipeline is not called again. *)
Theorem generate_other_failure {L : Collaborators} (srv : Server) (p : Pipeline)
    (req : ImageRequest) (w w1 : World) (e : exn) :
  pipe srv = Some p →
  width req mod 8 = 0 → height req mod 8 = 0 →
  inference srv p req w = (Raise e, w1) →
  is_oom e = false →
  generate srv req w =
  (HTTPException 500 (str e),
   {| trace := trace w1 ++ [Logged ERROR ("Generate error: " +:+ str e) true];
      runtime := runtime w1 |}) ∧
  (pipeline_calls (trace (generate srv req w).2) ≤ pipeline_calls (trace w) + 1)%nat.
Proof.
  intros Hp Hw Hh Hinf Hoom.
  split; [|apply generate_at_most_one_call].
  rewrite (generate_inference srv p req w Hp Hw Hh), Hinf.
  by destruct e.
Qed.

Lemma generate_other_failure_witness :
  generate Sample.loaded
    {| prompt := "x"; negative_prompt := ""; num_inference_steps := 0;
       guidance_scale := (15 # 2)%Q; width := 512; height := 512; seed := None |}
    Sample.start
  = (HTTPException 500 "num_inference_steps must be positive",
     {| trace := [Logged INFO "Prompt: x" false;
                  PipelineCalled (L := Sample.libraries) tt
                    {| arg_prompt := "x"; arg_negative_prompt := "";
                       arg_num_inference_steps := 0;
                       arg_guidance_scale := (15 # 2)%Q;
                       arg_width := 512; arg_height := 512;
                       arg_generator := None |};
                  Logged ERROR "Generate error: num_inference_steps must be positive" true];
        runtime := 7 |}).
Proof.
  exact (proj1 (generate_other_failure Sample.loaded tt
                  {| prompt := "x"; negative_prompt := ""; num_inference_steps := 0;
                     guidance_scale := (15 # 2)%Q; width := 512; height := 512;
                     seed := None |}
                  Sample.start
                  (after_call (L := Sample.libraries) tt
                     {| prompt := "x"; negative_prompt := ""; num_inference_steps := 0;
                        guidance_scale := (15 # 2)%Q; width := 512; height := 512;
                        seed := None |} None 7 Sample.start)
                  (Exception "ValueError" "num_inference_steps must be positive")
                  eq_refl eq_refl eq_refl eq_refl eq_refl)).
Defined.

(** ** Seeded requests *)

(** A request with a seed gives the pipeline a generator of its own, built
    from the device and the seed alone. *)
Lemma make_generator_seeded {L : Collaborators} (dev : string) (s : Z) (g : option Generator) :
  make_generator dev (Some s) = Ok g → ∃ g', g = Some g' ∧ manual_seed dev s = Ok g'.
Proof.
  unfold make_generator. destruct (manual_seed dev s) as [g'|e]; [|discriminate].
  intros [= <-]. by exists g'.
Qed.

Lemma ImageRequest_eq (req1 req2 : ImageRequest) :
  prompt req1 = prompt req2 →
  negative_prompt req1 = negative_prompt req2 →
  num_inference_steps req1 = num_inference_steps req2 →
  guidance_scale req1 = guidance_scale req2 →
  width req1 = width req2 →
  height req1 = height req2 →
  seed req1 = seed req2 →
  req1 = req2.
Proof. destruct req1, req2; simpl; by intros -> -> -> -> -> -> ->. Qed.

(** With a pipeline whose result, given a generator, does not depend on the
    runtime it starts from, the result of a seeded [try] block does not
    depend on the world. *)
Lemma inference_seeded {L : Collaborators} srv p req w1 w2 s :
  (∀ q args g rt1 rt2, arg_generator args = Some g →
     (run_pipeline q args rt1).1 = (run_pipeline q args rt2).1) →
  seed req = Some s →
  (inference srv p req w1).1 = (inference srv p req w2).1.
Proof.
  intros Hdet Hs. rewrite !inference_unfold, Hs.
  destruct (make_generator (device srv) (Some s)) as [g|e] eqn:Hg; [|done].
  apply make_generator_seeded in Hg as (g' & -> & _).
  pose proof (Hdet p (pipeline_args req (Some g')) g' (runtime w1) (runtime w2) eq_refl)
    as Hrun.
  destruct (run_pipeline p _ (runtime w1)) as [r1 rt1].
  destruct (run_pipeline p _ (runtime w2)) as [r2 rt2].
  simpl in Hrun. subst r2.
  destruct r1 as [images|e]; [|done].
  destruct (first_image images) as [img|e]; [|done].
  by destruct (pil_to_data_url_png img).
Qed.

(** C4: on a runtime where the pipeline, given a generator, computes the same
    result whatever state it starts from, two requests with the same seed and
    the same prompt, negative prompt, step count, guidance scale, width and
    height, served by the same loaded model, get the same outcome in any two
    worlds; when they succeed, their [image] fields are the same string. *)
Theorem generate_seeded_deterministic {L : Collaborators} (srv : Server)
    (req1 req2 : ImageRequest) (w1 w2 : World) (s : Z) :
  (∀ p args g rt1 rt2, arg_generator args = Some g →
     (run_pipeline p args rt1).1 = (run_pipeline p args rt2).1) →
  seed req1 = Some s → seed req2 = Some s →
  prompt req1 = prompt req2 →
  negative_prompt req1 = negative_prompt req2 →
  num_inference_steps req1 = num_inference_steps req2 →
  guidance_scale req1 = guidance_scale req2 →
  width req1 = width req2 →
  height req1 = height req2 →
  (generate srv req1 w1).1 = (generate srv req2 w2).1 ∧
  (∀ c1 c2, (generate srv req1 w1).1 = Returned c1 →
            (generate srv req2 w2).1 = Returned c2 →
            c1 !! "image" = c2 !! "image").
Proof.
  intros Hdet Hs1 Hs2 Hp Hnp Hn Hg Hw Hh.
  assert (req1 = req2) as <-.
  { apply ImageRequest_eq; try done. by rewrite Hs1, Hs2. }
  assert ((generate srv req1 w1).1 = (generate srv req1 w2).1) as Heq.
  { unfold generate. destruct (pipe srv) as [p|]; [|done].
    destruct (negb _ || negb _); [done|].
    pose proof (inference_seeded srv p req1 w1 w2 s Hdet Hs1) as Hinf.
    destruct (inference srv p req1 w1) as [r1 v1].
    destruct (inference srv p req1 w2) as [r2 v2].
    simpl in Hinf. subst r2.
    by destruct r1 as [c|[msg|cls msg]]. }
  split; [exact Heq|].
  intros c1 c2 H1 H2. rewrite Heq, H2 in H1. by injection H1 as <-.
Qed.

Lemma generate_seeded_deterministic_witness :
  (generate Sample.loaded (Sample.request 512 512 (Some 42))
     (Sample.world_at 7)).1
  = (generate Sample.loaded (Sample.request 512 512 (Some 42))
       (Sample.world_at 1000)).1.
Proof.
  refine (proj1 (generate_seeded_deterministic Sample.loaded
                   (Sample.request 512 512 (Some 42)) (Sample.request 512 512 (Some 42))
                   (Sample.world_at 7) (Sample.world_at 1000) 42
                   _ eq_refl eq_refl eq_refl eq_refl eq_refl eq_refl eq_refl eq_refl)).
  intros p [pr np n gs wd ht gen] g rt1 rt2 Hg. simpl in Hg. subst gen.
  unfold run_pipeline, Sample.libraries, Sample.paint. simpl.
  destruct (_ <? _)%Z; [done|]. by destruct (_ <? _)%Z.
Defined.

(** Without a seed the sample pipeline draws from the global generator, and
    the same request gives different images in different worlds. *)
Example unseeded_requests_differ :
  (generate Sample.loaded (Sample.request 512 512 None)
     (Sample.world_at 7)).1
  ≠ (generate Sample.loaded (Sample.request 512 512 None)
       (Sample.world_at 1000)).1.
Proof. vm_compute. discriminate. Qed.

(** * Further properties of the code *)

(** ** Start-up *)

Lemma app_three {A} (l : list A) (a b c : A) :
  ((l ++ [a]) ++ [b]) ++ [c] = l ++ [a; b; c].
Proof. by rewrite <- !app_assoc. Qed.

Ltac load_cases w :=
  unfold load_model, load_failed;
  destruct (cuda_is_available (runtime w)); simpl;
  (destruct (from_pretrained _ _) as [[?p0|?e] ?rt0] eqn:?Hload; simpl;
   [destruct (use_euler_ancestral _) as [?p1|?e] eqn:?Hswap; simpl;
    [destruct (to _ _ _) as [[?p2|?e] ?rt2] eqn:?Hto; simpl;
     [try (destruct (enable_attention_slicing _) as [?p3|?e] eqn:?Hslice; simpl)|]|]|]).

(** X1: [load_model] writes exactly three log entries, whatever happens: the two
    INFO lines naming the model, the device and the precision, and then
    either the INFO line "Model loaded", when it returns, or the ERROR line
    with the traceback and the message of the exception it re-raises.  It
    never runs the pipeline. *)
Theorem load_model_logs {L : Collaborators} {D : Loader} (srv : Server) (w : World) :
  ∃ last,
    trace (load_model srv w).2 =
    trace w ++ [Logged INFO ("Loading model: " +:+ MODEL_ID (environ srv)) false;
                Logged INFO ("Device: " +:+ device (load_model srv w).1.2 +:+ ", dtype: "
                             +:+ str_dtype (if cuda_is_available (runtime w)
                                            then float16 else float32)) false;
                last] ∧
    match (load_model srv w).1.1 with
    | Ok _ => last = Logged INFO "✅ Model loaded" false
    | Raise e => last = Logged ERROR ("Failed to load model: " +:+ str e) true
    end ∧
    pipeline_calls (trace (load_model srv w).2) = pipeline_calls (trace w).
Proof.
  load_cases w;
    eexists; (split; [apply app_three |]);
    (split; [reflexivity|]);
    rewrite !pipeline_calls_app; simpl; lia.
Qed.

(** X2: After [load_model], whether it returned or raised, the global [device] is
    "cuda" when [torch.cuda.is_available()] held at entry and "cpu"
    otherwise, and the environment [MODEL_ID] is read from is as before. *)
Theorem load_model_device {L : Collaborators} {D : Loader} (srv : Server) (w : World) :
  device (load_model srv w).1.2 = (if cuda_is_available (runtime w) then "cuda" else "cpu") ∧
  environ (load_model srv w).1.2 = environ srv.
Proof. load_cases w; done. Qed.

(** The path of [load_model] on which every library call succeeds. *)
Lemma load_model_returns {L : Collaborators} {D : Loader} (srv : Server) (w : World)
    p0 rt0 p1 p2 rt2 p3 :
  from_pretrained
    {| pretrained_model := MODEL_ID (environ srv);
       torch_dtype := if cuda_is_available (runtime w) then float16 else float32;
       safety_checker := None;
       requires_safety_checker := false |} (runtime w) = (Ok p0, rt0) →
  use_euler_ancestral p0 = Ok p1 →
  to p1 (if cuda_is_available (runtime w) then "cuda" else "cpu") rt0 = (Ok p2, rt2) →
  (if cuda_is_available (runtime w) then enable_attention_slicing p2 else Ok p2) = Ok p3 →
  load_model srv w =
  (Ok tt,
   {| environ := environ srv; pipe := Some p3;
      device := if cuda_is_available (runtime w) then "cuda" else "cpu" |},
   {| trace :=
        trace w ++
        [Logged INFO ("Loading model: " +:+ MODEL_ID (environ srv)) false;
         Logged INFO ("Device: "
                      +:+ (if cuda_is_available (runtime w) then "cuda" else "cpu")
                      +:+ ", dtype: "
                      +:+ str_dtype (if cuda_is_available (runtime w)
                                     then float16 else float32)) false;
         Logged INFO "✅ Model loaded" false];
      runtime := rt2 |}).
Proof.
  intros Hload Hswap Hto Hslice.
  unfold load_model, load_failed.
  destruct (cuda_is_available (runtime w)); simpl in *;
    rewrite Hload; simpl; rewrite Hswap; simpl; rewrite Hto; simpl.
  - rewrite Hslice. unfold record, set_runtime, set_pipe, set_device; simpl.
    by rewrite app_three.
  - injection Hslice as <-. unfold record, set_runtime, set_pipe, set_device; simpl.
    by rewrite app_three.
Qed.

(** X3: [load_model] returns exactly when all its library calls succeed:
    [from_pretrained] with the configured model, half precision on the
    accelerator and full precision otherwise, and the safety checker removed;
    the scheduler swap; the move to the device; and, on the accelerator only,
    [enable_attention_slicing].  The global [pipe] then holds the pipeline in
    its last state. *)
Theorem load_model_returns_iff {L : Collaborators} {D : Loader} (srv srv' : Server)
    (w w' : World) :
  load_model srv w = (Ok tt, srv', w') ↔
  ∃ p0 rt0 p1 p2 rt2 p3,
    from_pretrained
      {| pretrained_model := MODEL_ID (environ srv);
         torch_dtype := if cuda_is_available (runtime w) then float16 else float32;
         safety_checker := None;
         requires_safety_checker := false |} (runtime w) = (Ok p0, rt0) ∧
    use_euler_ancestral p0 = Ok p1 ∧
    to p1 (if cuda_is_available (runtime w) then "cuda" else "cpu") rt0 = (Ok p2, rt2) ∧
    (if cuda_is_available (runtime w) then enable_attention_slicing p2 else Ok p2) = Ok p3 ∧
    srv' = {| environ := environ srv; pipe := Some p3;
              device := if cuda_is_available (runtime w) then "cuda" else "cpu" |} ∧
    w' = {| trace :=
              trace w ++
              [Logged INFO ("Loading model: " +:+ MODEL_ID (environ srv)) false;
               Logged INFO ("Device: "
                            +:+ (if cuda_is_available (runtime w) then "cuda" else "cpu")
                            +:+ ", dtype: "
                            +:+ str_dtype (if cuda_is_available (runtime w)
                                           then float16 else float32)) false;
               Logged INFO "✅ Model loaded" false];
            runtime := rt2 |}.
Proof.
  split.
  - load_cases w; intros Heq; try discriminate Heq;
      injection Heq as <- <-;
      eexists _, _, _, _, _, _;
      (repeat split; try eassumption; try reflexivity);
      unfold record, set_runtime; simpl; by rewrite app_three.
  - intros (p0 & rt0 & p1 & p2 & rt2 & p3 & Hload & Hswap & Hto & Hslice & -> & ->).
    by apply (load_model_returns srv w p0 rt0 p1 p2 rt2 p3).
Qed.

Lemma load_model_returns_iff_witness :
  ∃ srv' w',
    load_model (D := Rig.loader) (imported ∅) (Rig.world_at 8) = (Ok tt, srv', w') ∧
    pipe srv' = Some {| Rig.model_name := "runwayml/stable-diffusion-v1-5";
                        Rig.precision := float16;
                        Rig.checked := false;
                        Rig.scheduler := "EulerAncestralDiscreteScheduler";
                        Rig.placed_on := "cuda";
                        Rig.slicing := true |}.
Proof.
  eexists _, _. split.
  - apply (proj2 (load_model_returns_iff (D := Rig.loader) (imported ∅) _ (Rig.world_at 8) _)).
    eexists _, _, _, _, _, _. repeat split; reflexivity.
  - reflexivity.
Defined.

(** X4: When [from_pretrained] raises, [load_model] raises the same exception and
    the global [pipe] is what it was.  Started from the module as imported,
    the service then answers every request with 500 "Model not loaded" and
    reports [loaded: false]. *)
Theorem load_model_download_failure {L : Collaborators} {D : Loader} (srv : Server)
    (w : World) (e : exn) (rt : Runtime) :
  from_pretrained
    {| pretrained_model := MODEL_ID (environ srv);
       torch_dtype := if cuda_is_available (runtime w) then float16 else float32;
       safety_checker := None;
       requires_safety_checker := false |} (runtime w) = (Raise e, rt) →
  (load_model srv w).1.1 = Raise e ∧
  pipe (load_model srv w).1.2 = pipe srv ∧
  (pipe srv = None →
     (∀ req w2, generate (load_model srv w).1.2 req w2
                = (HTTPException 500 "Model not loaded", w2)) ∧
     (∀ w2 content, health (load_model srv w).1.2 w2 = (Returned content, w2) →
                    content !! "loaded" = Some (JBool false))).
Proof.
  intros Hload.
  assert ((load_model srv w).1.1 = Raise e ∧ pipe (load_model srv w).1.2 = pipe srv)
    as [Hr Hp].
  { unfold load_model, load_failed.
    destruct (cuda_is_available (runtime w)); simpl in *; by rewrite Hload. }
  split; [done|]. split; [done|].
  intros Hnone. rewrite Hnone in Hp. split.
  - intros req w2. by apply generate_unloaded.
  - intros w2 content. unfold health. rewrite Hp. intros [= <-]. by simplify_map_eq.
Qed.

Lemma load_model_download_failure_witness :
  (load_model (D := Rig.loader) (imported (Rig.env_of "missing/model")) (Rig.world_at 7)).1.1
  = Raise (Exception "OSError" "missing/model is not a valid model identifier").
Proof.
  apply (load_model_download_failure (D := Rig.loader)
           (imported (Rig.env_of "missing/model")) (Rig.world_at 7) _ 7).
  reflexivity.
Defined.

(** X5: When [from_pretrained] succeeds and a later step raises, [load_model]
    raises, but the global [pipe] stays populated with the pipeline as far as
    it got, so that [health] reports [loaded: true]. *)
Theorem load_model_late_failure_keeps_handle {L : Collaborators} {D : Loader}
    (srv : Server) (w : World) (p0 : Pipeline) (rt : Runtime) (e : exn) :
  from_pretrained
    {| pretrained_model := MODEL_ID (environ srv);
       torch_dtype := if cuda_is_available (runtime w) then float16 else float32;
       safety_checker := None;
       requires_safety_checker := false |} (runtime w) = (Ok p0, rt) →
  (load_model srv w).1.1 = Raise e →
  (∃ p, pipe (load_model srv w).1.2 = Some p) ∧
  (use_euler_ancestral p0 = Raise e → pipe (load_model srv w).1.2 = Some p0) ∧
  (∀ w2 content, health (load_model srv w).1.2 w2 = (Returned content, w2) →
                 content !! "loaded" = Some (JBool true)).
Proof.
  intros Hload Hraise.
  assert ((∃ p, pipe (load_model srv w).1.2 = Some p) ∧
          (use_euler_ancestral p0 = Raise e → pipe (load_model srv w).1.2 = Some p0))
    as [[p Hp] Hswap0].
  { revert Hraise. unfold load_model, load_failed.
    destruct (cuda_is_available (runtime w)); simpl in *; rewrite Hload; simpl;
      (destruct (use_euler_ancestral p0) as [p1|e1]; simpl;
       [destruct (to p1 _ rt) as [[p2|e2] rt2]; simpl;
        [try (destruct (enable_attention_slicing p2) as [p3|e3]; simpl)|]|]);
      intros Hr; try discriminate Hr; (split; [by eexists | by intros ?]). }
  split; [by exists p|]. split; [done|].
  intros w2 content. unfold health. rewrite Hp. intros [= <-]. by simplify_map_eq.
Qed.

Lemma load_model_late_failure_keeps_handle_witness :
  ∃ p, pipe (load_model (D := Rig.loader) (imported (Rig.env_of "odd/scheduler"))
               (Rig.world_at 7)).1.2 = Some p.
Proof.
  apply (load_model_late_failure_keeps_handle (D := Rig.loader)
           (imported (Rig.env_of "odd/scheduler")) (Rig.world_at 7)
           {| Rig.model_name := "odd/scheduler"; Rig.precision := float32;
              Rig.checked := false; Rig.scheduler := "PNDMScheduler";
              Rig.placed_on := "cpu"; Rig.slicing := false |} 8
           (Exception "ValueError" "scheduler config is incomplete"));
    reflexivity.
Defined.

(** X6: Once [load_model] has returned, [health] reports [loaded: true] with the
    device chosen at start-up, and a request whose size is not divisible by 8
    is answered 400 (no longer 500). *)
Theorem load_model_then_serve {L : Collaborators} {D : Loader} (srv srv' : Server)
    (w w' : World) :
  load_model srv w = (Ok tt, srv', w') →
  (∀ w2, ∃ content,
     health srv' w2 = (Returned content, w2) ∧
     content !! "loaded" = Some (JBool true) ∧
     content !! "device" =
     Some (JStr (if cuda_is_available (runtime w) then "cuda" else "cpu"))) ∧
  (∀ req w2, width req mod 8 ≠ 0 ∨ height req mod 8 ≠ 0 →
     (generate srv' req w2).1
     = HTTPException 400 "width/height must be divisible by 8 (e.g., 512, 768)").
Proof.
  intros Hrun.
  assert ((∃ p, pipe srv' = Some p) ∧
          device srv' = (if cuda_is_available (runtime w) then "cuda" else "cpu"))
    as [[p Hp] Hdev].
  { revert Hrun. load_cases w; intros Hr; try discriminate Hr;
      injection Hr as <- <-; (split; [by eexists | done]). }
  split.
  - intros w2. eexists. split; [reflexivity|].
    rewrite Hp, Hdev. split; by simplify_map_eq.
  - intros req w2 Hsz. by rewrite (generate_bad_size srv' p req w2 Hp Hsz).
Qed.

Lemma load_model_then_serve_witness :
  ∃ srv' w',
    load_model (D := Rig.loader) (imported ∅) (Rig.world_at 7) = (Ok tt, srv', w') ∧
    (generate srv' (Sample.request 513 512 None) (Rig.world_at 0)).1
    = HTTPException 400 "width/height must be divisible by 8 (e.g., 512, 768)".
Proof.
  pose proof (load_model_returns (D := Rig.loader) (imported ∅) (Rig.world_at 7)
                _ _ _ _ _ _ eq_refl eq_refl eq_refl eq_refl) as Hrun.
  eexists _, _. split; [exact Hrun|].
  apply (proj2 (load_model_then_serve (D := Rig.loader) _ _ _ _ Hrun)).
  left. vm_compute. discriminate.
Defined.

(** ** What [generate] answers and what it leaves behind *)

Lemma mod8_divide (a : Z) : a mod 8 = 0 ↔ (8 | a).
Proof. by apply Z.mod_divide. Qed.

Lemma pipeline_called_in_trace {L : Collaborators} srv p req w g :
  pipe srv = Some p →
  width req mod 8 = 0 → height req mod 8 = 0 →
  make_generator (device srv) (seed req) = Ok g →
  PipelineCalled p (pipeline_args req g) ∈ trace (generate srv req w).2.
Proof.
  intros Hp Hw Hh Hg.
  rewrite (generate_inference srv p req w Hp Hw Hh), inference_unfold, Hg.
  assert (∀ rt, PipelineCalled p (pipeline_args req g) ∈ trace (after_call p req g rt w))
    as Hin by (intros rt; simpl; set_solver).
  destruct (run_pipeline _ _ _) as [[images|[msg|cls msg]] rt];
    [destruct (first_image images) as [img|[msg|cls msg]];
     [destruct (pil_to_data_url_png img) as [url|[msg|cls msg]]|..]|..];
    try exact (Hin rt);
    unfold record; cbn [trace snd]; apply elem_of_app; left; exact (Hin rt).
Qed.

(** X7: [generate] answers with one of four status codes: 200, 400, 500 or 507;
    the route adds 422 for a body that fails validation. *)
Theorem generate_status_codes {L : Collaborators} {FT : FieldTypes} (srv : Server)
    (req : ImageRequest) (body : gmap string jvalue) (w : World) :
  status_of (Handled (generate srv req w).1) ∈ [200; 400; 500; 507] ∧
  status_of (post_generate srv body w).1 ∈ [200; 400; 422; 500; 507].
Proof.
  assert (∀ r v, status_of (Handled (generate srv r v).1) ∈ [200; 400; 500; 507]) as Hgen.
  { intros r v. unfold generate. destruct (pipe srv) as [p|]; [|set_solver].
    destruct (negb _ || negb _); [set_solver|].
    destruct (inference srv p r v) as [[c|[msg|cls msg]] w1]; set_solver. }
  split; [apply Hgen|].
  unfold post_generate. destruct (parse_ImageRequest body) as [r|]; [|set_solver].
  specialize (Hgen r w). destruct (generate srv r w) as [o w1]. simpl in *.
  revert Hgen. generalize (status_of (Handled o)). intros c.
  rewrite !elem_of_cons, !elem_of_nil. tauto.
Qed.

(** X8: [generate] answers 400 exactly when the model is loaded and width and
    height are not both multiples of 8.  Multiples of 8 in the sense of
    Python's [%] include zero and the negative ones: such sizes are not
    refused. *)
Theorem generate_400_iff {L : Collaborators} (srv : Server) (req : ImageRequest)
    (w : World) :
  (∃ detail, (generate srv req w).1 = HTTPException 400 detail) ↔
  pipe srv ≠ None ∧ ¬ ((8 | width req) ∧ (8 | height req)).
Proof.
  rewrite <- !mod8_divide. split.
  - intros [detail Hout]. unfold generate in Hout.
    destruct (pipe srv) as [p|]; [|discriminate].
    split; [done|].
    destruct (negb _ || negb _) eqn:Hsz.
    + apply size_check_true in Hsz. tauto.
    + destruct (inference srv p req w) as [[c|[msg|cls msg]] w1]; discriminate.
  - intros [Hp Hsz]. destruct (pipe srv) as [p|] eqn:Hpipe; [|done].
    exists bad_size_msg. rewrite (generate_bad_size srv p req w Hpipe); [done|].
    destruct (decide (width req mod 8 = 0)); [|by left].
    destruct (decide (height req mod 8 = 0)); [|by right]. tauto.
Qed.

Lemma generate_400_iff_witness :
  (∃ detail, (generate Sample.loaded (Sample.request 512 12 None) Sample.start).1
             = HTTPException 400 detail) ∧
  ¬ (∃ detail, (generate Sample.loaded (Sample.request (-8) 0 None) Sample.start).1
               = HTTPException 400 detail).
Proof.
  split.
  - apply (proj2 (generate_400_iff Sample.loaded (Sample.request 512 12 None) Sample.start)).
    split; [discriminate|].
    intros [_ [k Hk]]. simpl in Hk. lia.
  - intros H400.
    apply (proj1 (generate_400_iff Sample.loaded (Sample.request (-8) 0 None) Sample.start))
      in H400 as [_ Hn].
    apply Hn. split; [by exists (-1) | by exists 0].
Defined.

(** X9: When the generator cannot be built from the seed, [generate] answers 500
    with the message of that exception; the prompt is not logged and the
    pipeline is not called: the only thing left behind is the error entry in
    the log. *)
Theorem generate_bad_seed {L : Collaborators} (srv : Server) (p : Pipeline)
    (req : ImageRequest) (w : World) (z : Z) (e : exn) :
  pipe srv = Some p →
  width req mod 8 = 0 → height req mod 8 = 0 →
  seed req = Some z →
  manual_seed (device srv) z = Raise e →
  is_oom e = false →
  generate srv req w =
  (HTTPException 500 (str e),
   {| trace := trace w ++ [Logged ERROR ("Generate error: " +:+ str e) true];
      runtime := runtime w |}).
Proof.
  intros Hp Hw Hh Hs Hseed Hoom.
  rewrite (generate_inference srv p req w Hp Hw Hh), inference_unfold.
  unfold make_generator. rewrite Hs, Hseed. by destruct e.
Qed.

Lemma generate_bad_seed_witness :
  generate Sample.loaded (Sample.request 512 512 (Some (2 ^ 64))) Sample.start
  = (HTTPException 500 "Overflow when unpacking long",
     {| trace := [Logged (L := Sample.libraries) ERROR
                    "Generate error: Overflow when unpacking long" true];
        runtime := 7 |}).
Proof.
  exact (generate_bad_seed Sample.loaded tt (Sample.request 512 512 (Some (2 ^ 64)))
           Sample.start (2 ^ 64)
           (Exception "RuntimeError" "Overflow when unpacking long")
           eq_refl eq_refl eq_refl eq_refl eq_refl eq_refl).
Defined.

(** X10: When the pipeline returns no image, [result.images[0]] raises
    [IndexError] and [generate] answers 500 with the detail
    "list index out of range", after the one pipeline call. *)
Theorem generate_no_images {L : Collaborators} (srv : Server) (p : Pipeline)
    (req : ImageRequest) (w : World) (g : option Generator) (rt : Runtime) :
  pipe srv = Some p →
  width req mod 8 = 0 → height req mod 8 = 0 →
  make_generator (device srv) (seed req) = Ok g →
  run_pipeline p (pipeline_args req g) (runtime w) = (Ok [], rt) →
  generate srv req w =
  (HTTPException 500 "list index out of range",
   {| trace := trace w ++ [Logged INFO ("Prompt: " +:+ prompt req) false;
                           PipelineCalled p (pipeline_args req g);
                           Logged ERROR "Generate error: list index out of range" true];
      runtime := rt |}).
Proof.
  intros Hp Hw Hh Hg Hrun.
  rewrite (generate_inference srv p req w Hp Hw Hh), inference_unfold, Hg, Hrun.
  simpl. unfold record, after_call. simpl. by rewrite app_three.
Qed.

(** X11: When PIL cannot write the first image as PNG, [generate] answers with the
    error of the writer: 500 with its message, logged, or 507 if it is an
    out-of-memory error; the pipeline has run once by then. *)
Theorem generate_png_failure {L : Collaborators} (srv : Server) (p : Pipeline)
    (req : ImageRequest) (w : World) (g : option Generator) (rt : Runtime)
    (img : Image) (rest : list Image) (e : exn) :
  pipe srv = Some p →
  width req mod 8 = 0 → height req mod 8 = 0 →
  make_generator (device srv) (seed req) = Ok g →
  run_pipeline p (pipeline_args req g) (runtime w) = (Ok (img :: rest), rt) →
  save_png img = Raise e →
  generate srv req w =
  match e with
  | OutOfMemoryError _ =>
      (HTTPException 507 "CUDA OOM. Try smaller width/height (512) or fewer steps.",
       after_call p req g rt w)
  | Exception _ msg =>
      (HTTPException 500 msg,
       {| trace := trace (after_call p req g rt w)
                   ++ [Logged ERROR ("Generate error: " +:+ msg) true];
          runtime := rt |})
  end.
Proof.
  intros Hp Hw Hh Hg Hrun Hsave.
  rewrite (generate_inference srv p req w Hp Hw Hh), inference_unfold, Hg, Hrun.
  simpl. unfold pil_to_data_url_png. rewrite Hsave. by destruct e.
Qed.

Lemma generate_no_images_witness :
  (generate Rig.ready (Sample.request 0 512 None) (Rig.world_at 7)).1
  = HTTPException 500 "list index out of range".
Proof.
  exact (f_equal fst
           (generate_no_images Rig.ready Rig.cpu_pipeline (Sample.request 0 512 None)
              (Rig.world_at 7) None 7 eq_refl eq_refl eq_refl eq_refl eq_refl)).
Defined.

Lemma generate_png_failure_witness :
  (generate Rig.ready (Sample.request 8 0 None) (Rig.world_at 7)).1
  = HTTPException 500 "tile cannot extend outside image".
Proof.
  exact (f_equal fst
           (generate_png_failure Rig.ready Rig.cpu_pipeline (Sample.request 8 0 None)
              (Rig.world_at 7) None 7 [] []
              (Exception "SystemError" "tile cannot extend outside image")
              eq_refl eq_refl eq_refl eq_refl eq_refl eq_refl)).
Defined.

(** X12: [generate] returns exactly when the model is loaded, both sizes are
    multiples of 8, the generator is built, the pipeline returns at least one
    image and PIL writes the first one; only the first image is used.  The
    world then holds the prompt line and the one pipeline call, and nothing
    is logged as an error. *)
Theorem generate_returns_iff {L : Collaborators} (srv : Server) (req : ImageRequest)
    (w w' : World) (content : gmap string jvalue) :
  generate srv req w = (Returned content, w') ↔
  ∃ p g rt img rest buf,
    pipe srv = Some p ∧
    width req mod 8 = 0 ∧ height req mod 8 = 0 ∧
    make_generator (device srv) (seed req) = Ok g ∧
    run_pipeline p (pipeline_args req g) (runtime w) = (Ok (img :: rest), rt) ∧
    save_png img = Ok buf ∧
    content = {[ "image" := JStr ("data:image/png;base64,"
                                  +:+ string_of_list_byte (Base64.b64encode buf));
                 "prompt" := JStr (prompt req);
                 "seed" := json_of_seed (seed req);
                 "device" := JStr (device srv);
                 "model" := JStr (MODEL_ID (environ srv)) ]} ∧
    w' = {| trace := trace w ++ [Logged INFO ("Prompt: " +:+ prompt req) false;
                                 PipelineCalled p (pipeline_args req g)];
            runtime := rt |}.
Proof.
  split.
  - intros Hrun.
    destruct (generate_returned_inv _ _ _ _ _ Hrun) as (p & Hp & Hw & Hh & Hinf).
    destruct (inference_ok_inv _ _ _ _ _ _ Hinf)
      as (g & rt & images & img & url & Hg & Hpipe & Himg & Hurl & -> & ->).
    apply pil_to_data_url_png_ok in Hurl as (buf & Hbuf & ->).
    destruct images as [|img' rest]; [discriminate|]. injection Himg as ->.
    exists p, g, rt, img, rest, buf. repeat split; try done.
    unfold after_call. by rewrite <- app_assoc.
  - intros (p & g & rt & img & rest & buf & Hp & Hw & Hh & Hg & Hpipe & Hbuf & -> & ->).
    rewrite (generate_succeeds srv p req w g rt img rest buf Hp Hw Hh Hg Hpipe Hbuf).
    unfold after_call. by rewrite <- app_assoc.
Qed.

Lemma generate_returns_iff_witness :
  ∃ content w',
    generate Sample.loaded (Sample.request 512 512 None) Sample.start
    = (Returned content, w') ∧ runtime w' = 10.
Proof.
  eexists _, _. split.
  - apply (proj2 (generate_returns_iff Sample.loaded (Sample.request 512 512 None)
                    Sample.start _ _)).
    exists tt, None, 10. eexists _, _, _. repeat split; reflexivity.
  - reflexivity.
Defined.

(** X13: What [generate] adds to the record of effects is one of: nothing (the
    two rejections, or an out-of-memory error while the generator is built);
    the error entry alone (the generator could not be
    built); or the prompt line directly followed by the single pipeline call
    with the fields of the request, and after them at most the error entry.
    The pipeline is given a generator exactly when the request has a seed. *)
Theorem generate_effects_shape {L : Collaborators} (srv : Server) (req : ImageRequest)
    (w : World) :
  ∃ evs,
    trace (generate srv req w).2 = trace w ++ evs ∧
    (evs = [] ∨
     (∃ e, evs = [Logged ERROR ("Generate error: " +:+ str e) true]) ∨
     (∃ p g tail,
        pipe srv = Some p ∧
        (is_Some g ↔ is_Some (seed req)) ∧
        evs = Logged INFO ("Prompt: " +:+ prompt req) false
              :: PipelineCalled p (pipeline_args req g) :: tail ∧
        (tail = [] ∨ ∃ e, tail = [Logged ERROR ("Generate error: " +:+ str e) true]))).
Proof.
  unfold generate.
  destruct (pipe srv) as [p|] eqn:Hp.
  2:{ exists []. rewrite app_nil_r. by split; [|left]. }
  destruct (negb _ || negb _).
  { exists []. rewrite app_nil_r. by split; [|left]. }
  rewrite inference_unfold.
  destruct (make_generator _ _) as [g|e] eqn:Hg.
  2:{ destruct e as [msg|cls msg]; simpl.
      - exists []. rewrite app_nil_r. by split; [|left].
      - eexists. split; [reflexivity|]. right; left.
        by exists (Exception cls msg). }
  assert (is_Some g ↔ is_Some (seed req)) as Hsome.
  { unfold make_generator in Hg. destruct (seed req) as [z|].
    - destruct (manual_seed _ z); [|discriminate]. injection Hg as <-.
      split; intros _; by eexists.
    - by injection Hg as <-. }
  assert (∀ (o : outcome) rt,
            ∃ evs, trace (o, after_call p req g rt w).2 = trace w ++ evs ∧
              (evs = [] ∨ (∃ e, evs = [Logged ERROR ("Generate error: " +:+ str e) true]) ∨
               ∃ p' g' tail, Some p = Some p' ∧ (is_Some g' ↔ is_Some (seed req)) ∧
                 evs = Logged INFO ("Prompt: " +:+ prompt req) false
                       :: PipelineCalled p' (pipeline_args req g') :: tail ∧
                 (tail = [] ∨
                  ∃ e, tail = [Logged ERROR ("Generate error: " +:+ str e) true])))
    as Hplain.
  { intros o rt. eexists. split; [simpl; by rewrite <- app_assoc|].
    right; right. exists p, g, []. repeat split; try apply Hsome; by left. }
  assert (∀ (o : outcome) rt (cls msg : string),
            ∃ evs, trace (o, record (Logged ERROR ("Generate error: " +:+ msg) true)
                               (after_call p req g rt w)).2 = trace w ++ evs ∧
              (evs = [] ∨ (∃ e, evs = [Logged ERROR ("Generate error: " +:+ str e) true]) ∨
               ∃ p' g' tail, Some p = Some p' ∧ (is_Some g' ↔ is_Some (seed req)) ∧
                 evs = Logged INFO ("Prompt: " +:+ prompt req) false
                       :: PipelineCalled p' (pipeline_args req g') :: tail ∧
                 (tail = [] ∨
                  ∃ e, tail = [Logged ERROR ("Generate error: " +:+ str e) true])))
    as Hfailed.
  { intros o rt cls msg. eexists. split; [simpl; by rewrite app_three|].
    right; right. eexists p, g, _. repeat split; try apply Hsome.
    right. by exists (Exception cls msg). }
  destruct (run_pipeline _ _ _) as [[images|[msg|cls msg]] rt];
    [destruct (first_image images) as [img|[msg|cls msg]];
     [destruct (pil_to_data_url_png img) as [url|[msg|cls msg]]|..]|..];
    first [apply Hplain | apply (Hfailed _ rt cls msg)].
Qed.

(** ** From the request body to the pipeline *)

(** A request is accepted by validation exactly when each field is: the
    fields of the result are those the validators give. *)
Lemma parse_ImageRequest_Some {FT : FieldTypes} (body : gmap string jvalue)
    (req : ImageRequest) :
  parse_ImageRequest body = Some req ↔
  required validate_str (body !! "prompt") = Some (prompt req) ∧
  with_default validate_str "blurry, low quality, distorted" (body !! "negative_prompt")
  = Some (negative_prompt req) ∧
  with_default validate_int 25 (body !! "num_inference_steps")
  = Some (num_inference_steps req) ∧
  with_default validate_float (15 # 2)%Q (body !! "guidance_scale")
  = Some (guidance_scale req) ∧
  with_default validate_int 512 (body !! "width") = Some (width req) ∧
  with_default validate_int 512 (body !! "height") = Some (height req) ∧
  with_default validate_optional_int None (body !! "seed") = Some (seed req).
Proof.
  unfold parse_ImageRequest.
  destruct (required _ _) as [p|]; simpl;
    [|split; [discriminate | intros Hc; decompose [and] Hc; discriminate]].
  destruct (with_default validate_str _ _) as [np|]; simpl;
    [|split; [discriminate | intros Hc; decompose [and] Hc; discriminate]].
  destruct (with_default validate_int 25 _) as [n|]; simpl;
    [|split; [discriminate | intros Hc; decompose [and] Hc; discriminate]].
  destruct (with_default validate_float _ _) as [gs|]; simpl;
    [|split; [discriminate | intros Hc; decompose [and] Hc; discriminate]].
  destruct (with_default validate_int 512 (body !! "width")) as [wd|]; simpl;
    [|split; [discriminate | intros Hc; decompose [and] Hc; discriminate]].
  destruct (with_default validate_int 512 (body !! "height")) as [ht|]; simpl;
    [|split; [discriminate | intros Hc; decompose [and] Hc; discriminate]].
  destruct (with_default validate_optional_int _ _) as [sd|]; simpl;
    [|split; [discriminate | intros Hc; decompose [and] Hc; discriminate]].
  destruct req as [p' np' n' gs' wd' ht' sd']; simpl. split.
  - intros [= -> -> -> -> -> -> ->]. done.
  - intros Hc. decompose [and] Hc. congruence.
Qed.

(** X14: A body that gives neither width nor height is never answered 400: the
    defaults, 512 and 512, pass the size check. *)
Theorem default_size_accepted {L : Collaborators} {FT : FieldTypes} (srv : Server)
    (body : gmap string jvalue) (w : World) :
  body !! "width" = None → body !! "height" = None →
  status_of (post_generate srv body w).1 ≠ 400.
Proof.
  intros Hwd Hht. unfold post_generate.
  destruct (parse_ImageRequest body) as [req|] eqn:Hparse; [|done].
  apply parse_ImageRequest_Some in Hparse as (_ & _ & _ & _ & Hw & Hh & _).
  rewrite Hwd in Hw. rewrite Hht in Hh. simpl in Hw, Hh.
  injection Hw as Hw. injection Hh as Hh.
  unfold generate. destruct (pipe srv) as [p|]; [|done].
  rewrite (proj2 (size_check_false req)) by (rewrite <- Hw, <- Hh; done).
  by destruct (inference srv p req w) as [[c|[msg|cls msg]] w1].
Qed.

Lemma default_size_accepted_witness :
  status_of (post_generate (FT := Sample.strict) Sample.loaded
               {[ "prompt" := JStr "x"; "seed" := JInt 3 ]} Sample.start).1 ≠ 400.
Proof.
  apply (default_size_accepted (FT := Sample.strict) Sample.loaded
           {[ "prompt" := JStr "x"; "seed" := JInt 3 ]} Sample.start);
    reflexivity.
Defined.

(** X15: A body that gives only a prompt, served by a loaded model, reaches the
    pipeline with that prompt and the declared defaults: the negative prompt
    "blurry, low quality, distorted", 25 steps, guidance 7.5, 512 by 512, and
    no generator. *)
Theorem prompt_only_body_runs_with_defaults {L : Collaborators} {FT : FieldTypes}
    (srv : Server) (p : Pipeline) (j : jvalue) (s : string) (w : World) :
  pipe srv = Some p →
  validate_str j = Some s →
  PipelineCalled p
    {| arg_prompt := s;
       arg_negative_prompt := "blurry, low quality, distorted";
       arg_num_inference_steps := 25;
       arg_guidance_scale := (15 # 2)%Q;
       arg_width := 512;
       arg_height := 512;
       arg_generator := None |}
    ∈ trace (post_generate srv {[ "prompt" := j ]} w).2.
Proof.
  intros Hp Hs. unfold post_generate.
  assert (parse_ImageRequest {[ "prompt" := j ]} =
          Some {| prompt := s; negative_prompt := "blurry, low quality, distorted";
                  num_inference_steps := 25; guidance_scale := (15 # 2)%Q;
                  width := 512; height := 512; seed := None |}) as ->.
  { apply parse_ImageRequest_Some. simpl.
    rewrite lookup_singleton_eq, !lookup_singleton_ne by done. simpl. by rewrite Hs. }
  match goal with
  | |- context [generate srv ?r w] =>
      pose proof (pipeline_called_in_trace srv p r w None Hp eq_refl eq_refl eq_refl) as Hin;
      destruct (generate srv r w) as [o w1]
  end.
  exact Hin.
Qed.

Lemma prompt_only_body_runs_with_defaults_witness :
  PipelineCalled (L := Sample.libraries) tt
    {| arg_prompt := "a red circle";
       arg_negative_prompt := "blurry, low quality, distorted";
       arg_num_inference_steps := 25;
       arg_guidance_scale := (15 # 2)%Q;
       arg_width := 512;
       arg_height := 512;
       arg_generator := None |}
    ∈ trace (post_generate (FT := Sample.strict) Sample.loaded
               {[ "prompt" := JStr "a red circle" ]} Sample.start).2.
Proof.
  apply (prompt_only_body_runs_with_defaults (FT := Sample.strict) Sample.loaded tt
           (JStr "a red circle") "a red circle" Sample.start);
    reflexivity.
Defined.

(** X16: For [seed: Optional[int] = None], a body that gives [null] is validated
    like one that leaves the field out. *)
Theorem null_seed_is_no_seed {FT : FieldTypes} (body : gmap string jvalue) :
  parse_ImageRequest (<["seed" := JNull]> body) = parse_ImageRequest (delete "seed" body).
Proof.
  unfold parse_ImageRequest.
  rewrite lookup_insert_eq, lookup_delete_eq.
  rewrite !lookup_insert_ne, !lookup_delete_ne by done.
  reflexivity.
Qed.

(** ** The payload of the data URL *)

Module PayloadFacts.
Import Base64.

Lemma char_of_in_alphabet (n : N) : char_of n ∈ alphabet ∨ char_of n = pad.
Proof.
  unfold char_of. destruct (alphabet !! N.to_nat n) as [c|] eqn:Hc; simpl.
  - left. by apply list_elem_of_lookup_2 with (N.to_nat n).
  - by right.
Qed.

Lemma alphabet_ascii : Forall (λ c, (to_N c < 128)%N) (pad :: alphabet).
Proof. repeat constructor. Qed.

Lemma string_of_list_byte_length (l : list byte) :
  String.length (string_of_list_byte l) = length l.
Proof. induction l as [|c l IH]; simpl; [done | f_equal; exact IH]. Qed.

Lemma data_url_prefix_length (b64 : string) :
  String.length (data_url_prefix +:+ b64) = (22 + String.length b64)%nat.
Proof. reflexivity. Qed.

Lemma encoded_length (bs : list byte) :
  length (b64encode bs) = (4 * ((length bs + 2) / 3))%nat.
Proof.
  induction bs as [|a|a b|a b c rest IH] using Base64Facts.list_triples_ind;
    try reflexivity.
  cbn [b64encode length]. rewrite IH.
  replace (S (S (S (length rest))) + 2)%nat with ((length rest + 2) + 1 * 3)%nat by lia.
  rewrite Nat.div_add by lia. lia.
Qed.

End PayloadFacts.

(** X17: The Base64 text of [n] bytes has [4 * ceil(n / 3)] characters: always a
    multiple of four, and none for no bytes. *)
Theorem b64encode_length (bs : list byte) :
  length (Base64.b64encode bs) = (4 * ((length bs + 2) / 3))%nat ∧
  (length (Base64.b64encode bs) mod 4 = 0)%nat ∧
  (Base64.b64encode bs = [] ↔ bs = []).
Proof.
  pose proof (PayloadFacts.encoded_length bs) as Hlen.
  split; [exact Hlen|]. split.
  - rewrite Hlen, Nat.mul_comm. apply Nat.Div0.mod_mul.
  - split; [|by intros ->].
    intros Hnil. by destruct bs as [|a [|b [|c rest]]].
Qed.

(** X18: The Base64 text contains only the 64 characters of the alphabet and [=],
    all of them ASCII, so that reading it as UTF-8 cannot fail. *)
Theorem b64encode_alphabet (bs : list byte) :
  Forall (λ c, (c ∈ Base64.alphabet ∨ c = Base64.pad) ∧ (to_N c < 128)%N)
         (Base64.b64encode bs).
Proof.
  assert (∀ c, c ∈ Base64.alphabet ∨ c = Base64.pad →
               (c ∈ Base64.alphabet ∨ c = Base64.pad) ∧ (to_N c < 128)%N) as Hok.
  { intros c Hc. split; [done|].
    pose proof PayloadFacts.alphabet_ascii as Hall. rewrite Forall_forall in Hall.
    apply Hall. destruct Hc as [Hc| ->]; [by right | by left]. }
  assert (∀ n, (Base64.char_of n ∈ Base64.alphabet ∨ Base64.char_of n = Base64.pad) ∧
               (to_N (Base64.char_of n) < 128)%N) as Hchar.
  { intros n. apply Hok, PayloadFacts.char_of_in_alphabet. }
  assert ((Base64.pad ∈ Base64.alphabet ∨ Base64.pad = Base64.pad) ∧
          (to_N Base64.pad < 128)%N) as Hpad by (apply Hok; by right).
  induction bs as [|a|a b|a b c rest IH] using Base64Facts.list_triples_ind;
    cbn [Base64.b64encode]; repeat apply List.Forall_cons;
    try apply List.Forall_nil; try apply Hchar; try apply Hpad; try exact IH.
Qed.

(** X19: Encoding a list whose length is a multiple of three and then another
    list gives the two texts one after the other: no padding appears inside
    the text. *)
Theorem b64encode_app (bs1 bs2 : list byte) :
  (length bs1 mod 3 = 0)%nat →
  Base64.b64encode (bs1 ++ bs2) = Base64.b64encode bs1 ++ Base64.b64encode bs2.
Proof.
  induction bs1 as [|a|a b|a b c rest IH] using Base64Facts.list_triples_ind;
    intros Hlen; try done.
  cbn [app Base64.b64encode]. rewrite IH; [done|].
  cbn [length] in Hlen.
  replace (S (S (S (length rest)))) with (length rest + 1 * 3)%nat in Hlen by lia.
  by rewrite Nat.Div0.mod_add in Hlen.
Qed.

Lemma b64encode_app_witness :
  Base64.b64encode ([x4d; x61; x6e] ++ [x4d])
  = Base64.b64encode [x4d; x61; x6e] ++ Base64.b64encode [x4d].
Proof. apply b64encode_app. reflexivity. Defined.

(** X20: The data URL of an image has 22 characters of prefix and then four for
    every three bytes of the PNG file, rounded up. *)
Theorem data_url_length {L : Collaborators} (img : Image) (buf : list byte)
    (url : string) :
  save_png img = Ok buf →
  pil_to_data_url_png img = Ok url →
  String.length url = (22 + 4 * ((length buf + 2) / 3))%nat.
Proof.
  intros Hbuf Hurl. unfold pil_to_data_url_png in Hurl. rewrite Hbuf in Hurl.
  injection Hurl as <-.
  rewrite PayloadFacts.data_url_prefix_length, PayloadFacts.string_of_list_byte_length.
  by rewrite PayloadFacts.encoded_length.
Qed.

Lemma data_url_length_witness :
  ∃ url, pil_to_data_url_png (L := Sample.libraries) [xff; x00; x00; xff] = Ok url ∧
         String.length url = 38%nat.
Proof.
  eexists. split; [reflexivity|].
  apply (data_url_length (L := Sample.libraries) [xff; x00; x00; xff]
           (Sample.png_signature ++ [xff; x00; x00; xff])); reflexivity.
Defined.

(** X21: Two images get the same data URL only if PIL writes them as the same PNG
    file: the encoding loses nothing. *)
Theorem data_url_injective {L : Collaborators} (img1 img2 : Image) (url : string) :
  pil_to_data_url_png img1 = Ok url →
  pil_to_data_url_png img2 = Ok url →
  save_png img1 = save_png img2.
Proof.
  intros H1 H2.
  apply pil_to_data_url_png_ok in H1 as (buf1 & Hb1 & ->).
  apply pil_to_data_url_png_ok in H2 as (buf2 & Hb2 & Heq).
  pose proof (data_url_payload_encode buf1) as Hd1.
  rewrite Heq, data_url_payload_encode in Hd1.
  injection Hd1 as ->. by rewrite Hb1, Hb2.
Qed.

Lemma data_url_injective_witness :
  @save_png Rig.libraries [xff; x00; x00] = @save_png Rig.libraries [xff; x00; x00].
Proof.
  eapply (data_url_injective (L := Rig.libraries) [xff; x00; x00] [xff; x00; x00]);
    reflexivity.
Defined.
